(** * winston-cloudwatch-example: the logging layer

    A shallow embedding of [src/logger.ts] and
    [src/middleware/loggerMiddleware.ts], and the properties of the
    log-entry builder, the logger registry and the request hook that follow
    from that code.

    JavaScript objects are finite maps from property names to values
    (property order plays no role in what is proved here).  The calls the
    code makes into winston are kept as data: a logger is its configuration
    (level, format, list of transports) and a call to [logger.info] is
    recorded in a trace. *)

From stdpp Require Import gmap strings list fin_maps pretty.
From Stdlib Require Import ZArith Ascii.

#[local] Set Warnings "-register-all".
#[local] Open Scope Z_scope.

(** ** JavaScript values *)

(** Numbers are restricted to integers: the only numbers the code handles
    are [uploadRate], status codes and ports. *)
Inductive value : Type :=
  | VUndefined
  | VNull
  | VBool (b : bool)
  | VNum (n : Z)
  | VStr (s : string)
  | VObj (o : gmap string value).

Abbreviation object := (gmap string value).

(** ToBoolean. *)
Definition truthy (v : value) : bool :=
  match v with
  | VUndefined | VNull => false
  | VBool b => b
  | VNum n => negb (n =? 0)
  | VStr s => negb (String.eqb s "")
  | VObj _ => true
  end.

(** [a || b] *)
Definition js_or (a b : value) : value := if truthy a then a else b.

(** A value of type [string | undefined]. *)
Definition opt_str (o : option string) : value :=
  match o with
  | Some s => VStr s
  | None => VUndefined
  end.

(** An object literal [{ k1: v1, k2: v2, ... }]: the properties are defined
    from left to right, a later one replacing an earlier one of the same
    name. *)
Definition obj_literal {V : Type} (props : list (string * V)) : gmap string V :=
  fold_left (fun o kv => <[kv.1 := kv.2]> o) props ∅.

(** [{ ...o, ...src }]: the own properties of [src] are copied over those
    of [o]; spreading [undefined] copies nothing. *)
Definition obj_spread (o : object) (src : option object) : object :=
  match src with
  | Some s => s ∪ o
  | None => o
  end.

(** ** [Date.prototype.toISOString] *)

Module Date.

Definition msPerDay : Z := 86400000.

Definition digit (d : Z) : string :=
  String (ascii_of_nat (48 + Z.to_nat d)) EmptyString.

(** The [width] lowest decimal digits of [n]. *)
Fixpoint pad (width : nat) (n : Z) : string :=
  match width with
  | O => EmptyString
  | S w => pad w (n / 10) +:+ digit (n mod 10)
  end.

(** Year, month and day of the proleptic Gregorian calendar from the
    number of days since 1970-01-01. *)
Definition civil_from_days (z : Z) : Z * Z * Z :=
  let z := z + 719468 in
  let era := z / 146097 in
  let doe := z - era * 146097 in
  let yoe := (doe - doe / 1460 + doe / 36524 - doe / 146096) / 365 in
  let doy := doe - (365 * yoe + yoe / 4 - yoe / 100) in
  let mp := (5 * doy + 2) / 153 in
  let d := doy - (153 * mp + 2) / 5 + 1 in
  let m := if mp <? 10 then mp + 3 else mp - 9 in
  let y := yoe + era * 400 + (if m <=? 2 then 1 else 0) in
  (y, m, d).

(** Four digits for the years 0 to 9999, a sign and six digits outside. *)
Definition year_string (y : Z) : string :=
  if (0 <=? y) && (y <=? 9999) then pad 4 y
  else (if y <? 0 then "-" else "+") +:+ pad 6 (Z.abs y).

(** [new Date(t).toISOString()] for a time value [t] in milliseconds
    since the epoch. *)
Definition toISOString (t : Z) : string :=
  let '(y, m, d) := civil_from_days (t / msPerDay) in
  let r := t mod msPerDay in
  year_string y +:+ "-" +:+ pad 2 m +:+ "-" +:+ pad 2 d +:+ "T" +:+
  pad 2 (r / 3600000) +:+ ":" +:+ pad 2 (r / 60000 mod 60) +:+ ":" +:+
  pad 2 (r / 1000 mod 60) +:+ "." +:+ pad 3 (r mod 1000) +:+ "Z".

End Date.

(** ** [logger.ts] *)

(** [process.env] once [dotenv.config()] has run. *)
Abbreviation Env := (gmap string string).

(** [process.env.NAME] *)
Definition env_get (env : Env) (name : string) : value := opt_str (env !! name).

(** The options object handed to [new winston.transports.CloudWatch]. *)
Record CloudWatchOptions : Type := {
  logGroupName : value;
  logStreamName : string;
  awsRegion : value;
  jsonMessage : bool;
  awsAccessKeyId : value;
  awsSecretAccessKey : value;
  uploadRate : Z;
}.

Inductive Transport : Type :=
  | Console
  | CloudWatch (opts : CloudWatchOptions).

(** winston's default (npm) levels, most severe first. *)
Inductive Level : Type :=
  | LError | LWarn | LInfo | LHttp | LVerbose | LDebug | LSilly.

Inductive Format : Type :=
  | FormatJson.

(** The configuration passed to [winston.createLogger]. *)
Record Logger : Type := {
  level : Level;
  format : Format;
  transports : list Transport;
}.

Definition createLoggerForStream (env : Env) (logStreamName : string) : Logger :=
  {| level := LInfo;
     format := FormatJson;
     transports :=
       [ Console;
         CloudWatch
           {| logGroupName :=
                js_or (env_get env "CLOUDWATCH_LOG_GROUP_NAME") (VStr "MyAppLogs");
              logStreamName := logStreamName;
              awsRegion := env_get env "AWS_REGION";
              jsonMessage := true;
              awsAccessKeyId := env_get env "AWS_ACCESS_KEY_ID";
              awsSecretAccessKey := env_get env "AWS_SECRET_ACCESS_KEY";
              uploadRate := 1000 |} ] |}.

(** The exported object of loggers, one property per log stream. *)
Definition loggers (env : Env) : gmap string Logger :=
  obj_literal
    [ ("communication", createLoggerForStream env "communication-transactions");
      ("systemErrors", createLoggerForStream env "system-errors");
      ("auditLog", createLoggerForStream env "audit-log");
      ("accountTransactions", createLoggerForStream env "account-transactions");
      ("clientProfile", createLoggerForStream env "client-profile-management");
      ("identityVerification", createLoggerForStream env "identity-verification");
      ("apiPerformance", createLoggerForStream env "api-performance") ].

Inductive Status : Type :=
  | SUCCESS
  | FAILURE.

Definition status_string (s : Status) : string :=
  match s with
  | SUCCESS => "SUCCESS"
  | FAILURE => "FAILURE"
  end.

Record LogEntryOptions : Type := {
  action : string;
  clientId : string;
  additionalData : option object;
  status : option Status;
}.

(** The properties of an Express request that the logging code reads.  A
    property the request does not have reads as [VUndefined]; the server
    start-up entry is built from [{} as Request], all of whose properties
    are absent. *)
Record Request : Type := {
  agentId : value;
  originalUrl : value;
  ip : value;
  method : value;
  headers : value;
  params : value;
  body : value;
}.

Definition empty_request : Request :=
  {| agentId := VUndefined; originalUrl := VUndefined; ip := VUndefined;
     method := VUndefined; headers := VUndefined; params := VUndefined;
     body := VUndefined |}.

(** The eight properties written out in the literal of [createLogEntry],
    before the spread.  [now] is the time value of [new Date()]. *)
Definition fixed_fields (now : Z) (options : LogEntryOptions) (req : Request)
  : object :=
  obj_literal
    [ ("timestamp", VStr (Date.toISOString now));
      ("agentId", js_or (agentId req) (VStr "UNKNOWN_AGENT"));
      ("clientId", VStr (clientId options));
      ("action", VStr (action options));
      ("endpoint", originalUrl req);
      ("status", js_or (opt_str (status_string <$> status options)) (VStr "SUCCESS"));
      ("requestIP", ip req);
      ("userRole", VStr "agent") ].

Definition createLogEntry (now : Z) (options : LogEntryOptions) (req : Request)
  : object :=
  obj_spread (fixed_fields now options req) (additionalData options).

(** [additionalData] is absent, or has no property [k]. *)
Definition extra_lacks (options : LogEntryOptions) (k : string) : Prop :=
  additionalData options ≫= (.!! k) = None.

(** The names of the fixed envelope fields. *)
Definition fixed_keys : list string :=
  [ "timestamp"; "agentId"; "clientId"; "action"; "endpoint"; "status";
    "requestIP"; "userRole" ].

(** The log streams, as the header of [logger.ts] lists them. *)
Definition logging_streams : list string :=
  [ "client-profile-management"; "communication-transactions";
    "account-transactions"; "identity-verification"; "audit-log";
    "system-errors"; "api-performance" ].

(** The CloudWatch log streams a logger uploads to. *)
Definition logger_streams (lg : Logger) : list string :=
  omap (fun t => match t with
                 | CloudWatch opts => Some (logStreamName opts)
                 | Console => None
                 end) (transports lg).

(** ** Calls into winston

    What the repository's code does with a logger is to call one of its
    level methods with an entry.  The calls are recorded in order. *)

Record LogCall : Type := {
  lc_logger : Logger;
  lc_level : Level;
  lc_info : object;
}.

(** How a statement completes: normally, or by throwing. *)
Inductive completion (A : Type) : Type :=
  | Normal (a : A)
  | Throw (e : value).
Arguments Normal {A} a.
Arguments Throw {A} e.

(** Computations over the trace of logger calls made so far. *)
Definition M (A : Type) : Type := list LogCall -> completion A * list LogCall.

#[global] Instance M_ret : MRet M := fun A a s => (Normal a, s).

#[global] Instance M_bind : MBind M := fun A B k m s =>
  match m s with
  | (Normal a, s') => k a s'
  | (Throw e, s') => (Throw e, s')
  end.

Definition throw {A : Type} (e : value) : M A := fun s => (Throw e, s).

Definition TypeError : value := VObj {[ "name" := VStr "TypeError" ]}.

(** [lg[level](info)] for the value [lg] read from a property of [loggers];
    calling a method of [undefined] throws. *)
Definition call_logger (lg : option Logger) (l : Level) (info : object) : M unit :=
  match lg with
  | Some lg =>
      fun s => (Normal tt, s ++ [ {| lc_logger := lg; lc_level := l; lc_info := info |} ])
  | None => throw TypeError
  end.

(** ** [middleware/loggerMiddleware.ts] *)

Record Response : Type := {
  statusCode : value;
}.

(** The entry [logRequest] logs. *)
Definition incoming_request (req : Request) : object :=
  obj_literal
    [ ("message", VStr "Incoming request");
      ("method", method req);
      ("url", originalUrl req);
      ("headers", headers req);
      ("params", params req);
      ("body", body req) ].

(** [next] is whatever Express runs after this middleware: the remaining
    middlewares and the route handler. *)
Definition logRequest (env : Env) (req : Request) (res : Response) (next : M unit)
  : M unit :=
  call_logger (loggers env !! "systemErrors") LInfo (incoming_request req) ;;
  next.

(** The calls of a trace that went to the logger of one stream. *)
Definition calls_to (stream : string) (trace : list LogCall) : list LogCall :=
  filter (fun c => stream ∈ logger_streams (lc_logger c)) trace.

(** ** winston's dispatch to the transports

    The delivery of an entry to the transports happens inside the winston
    package.  Its contract, as far as the configuration built by
    [createLoggerForStream] relies on it: an entry whose level is at least
    as severe as the logger's level is stamped with its level and handed to
    every transport of the logger, in the order of the [transports] array;
    any other entry is discarded. *)

Definition level_num (l : Level) : Z :=
  match l with
  | LError => 0 | LWarn => 1 | LInfo => 2 | LHttp => 3
  | LVerbose => 4 | LDebug => 5 | LSilly => 6
  end.

Definition level_name (l : Level) : string :=
  match l with
  | LError => "error" | LWarn => "warn" | LInfo => "info" | LHttp => "http"
  | LVerbose => "verbose" | LDebug => "debug" | LSilly => "silly"
  end.

Definition level_enabled (lg : Logger) (l : Level) : bool :=
  level_num l <=? level_num (level lg).

Definition stamp (c : LogCall) : object :=
  <["level" := VStr (level_name (lc_level c))]> (lc_info c).

Definition dispatch (c : LogCall) : list (Transport * object) :=
  if level_enabled (lc_logger c) (lc_level c)
  then (fun t => (t, stamp c)) <$> transports (lc_logger c)
  else [].

(** The remote transport is left open: any state, and any reaction to an
    entry it is handed. *)
Class RemoteTransport (R : Type) : Type :=
  remote_log : CloudWatchOptions -> object -> R -> R.

(** What the console has printed, and the state of the remote transport. *)
Record World (R : Type) : Type := {
  console_out : list object;
  remote : R;
}.
Arguments console_out {R} w.
Arguments remote {R} w.

Definition transport_log {R : Type} `{!RemoteTransport R}
    (w : World R) (d : Transport * object) : World R :=
  match d.1 with
  | Console =>
      {| console_out := console_out w ++ [d.2]; remote := remote w |}
  | CloudWatch opts =>
      {| console_out := console_out w; remote := remote_log opts d.2 (remote w) |}
  end.

Definition deliver {R : Type} `{!RemoteTransport R} (w : World R) (c : LogCall)
  : World R :=
  fold_left transport_log (dispatch c) w.

Definition deliver_all {R : Type} `{!RemoteTransport R} (w : World R)
    (trace : list LogCall) : World R :=
  fold_left deliver trace w.

(** A call made through one of the loggers of the registry, at a level the
    logger lets through. *)
Definition registry_call (env : Env) (c : LogCall) : Prop :=
  (∃ key, loggers env !! key = Some (lc_logger c)) ∧
  level_enabled (lc_logger c) (lc_level c) = true.

(** A remote transport that is switched off. *)
#[global] Instance remote_disabled : RemoteTransport unit := fun _ _ r => r.

(** The properties of [loggers] and the stream each one logs to. *)
Definition logger_table : list (string * string) :=
  [ ("communication", "communication-transactions");
    ("systemErrors", "system-errors");
    ("auditLog", "audit-log");
    ("accountTransactions", "account-transactions");
    ("clientProfile", "client-profile-management");
    ("identityVerification", "identity-verification");
    ("apiPerformance", "api-performance") ].

(** The log group the loggers are given: the configured one, or
    ["MyAppLogs"] when it is missing or empty. *)
Definition group_name (env : Env) : string :=
  match env !! "CLOUDWATCH_LOG_GROUP_NAME" with
  | Some g => if decide (g = "") then "MyAppLogs" else g
  | None => "MyAppLogs"
  end.

(** ** Calls taken from [app.ts] *)

(** The second identity-verification entry of [POST
    /api/clients/:clientId/verify]. *)
Definition verify_result_options : LogEntryOptions :=
  {| action := "VERIFY_IDENTITY";
     clientId := "client-1";
     additionalData := Some {[ "status" := VStr "VERIFIED" ]};
     status := Some SUCCESS |}.

(** The audit entry of [GET /api/clients/:clientId]; [header] is
    [req.headers.agentId]. *)
Definition audit_view_options (header : value) : LogEntryOptions :=
  {| action := "AUDIT_VIEW_CLIENT_PROFILE";
     clientId := "client-1";
     additionalData := Some {[ "agentId" := header ]};
     status := None |}.

(** The entry logged when the server starts listening, built from
    [{} as Request]. *)
Definition server_start_options : LogEntryOptions :=
  {| action := "SERVER_START";
     clientId := "SYSTEM";
     additionalData := Some {[ "port" := VNum 3000 ]};
     status := Some SUCCESS |}.

(** A request as [app.ts] sees it once [req.agentId] has been set. *)
Definition agent_request : Request :=
  {| agentId := VStr "AGENT12345";
     originalUrl := VStr "/api/clients/client-1";
     ip := VStr "::1";
     method := VStr "GET";
     headers := VObj ∅;
     params := VObj {[ "clientId" := VStr "client-1" ]};
     body := VObj ∅ |}.

(** What [app.ts] has logged through the [system-errors] logger once the
    server has started and a first request has come in: the start-up entry,
    logged as [info('Server startup', entry)], and the entry of
    [logRequest]. *)
Definition startup_trace (env : Env) : list LogCall :=
  [ {| lc_logger := createLoggerForStream env "system-errors";
       lc_level := LInfo;
       lc_info := <["message" := VStr "Server startup"]>
                    (createLogEntry 0 server_start_options empty_request) |};
    {| lc_logger := createLoggerForStream env "system-errors";
       lc_level := LInfo;
       lc_info := incoming_request agent_request |} ].

(** ** [app.ts]

    What a middleware or a route handler works on: the trace of logger
    calls, the clock, the request object (shared by all middlewares and the
    handler, and assigned to by one of them), and the response.  [st_path]
    is [req.path]; [st_sent] holds the bodies passed to [res.send]. *)

Record AppState : Type := {
  st_trace : list LogCall;
  st_reads : nat;
  st_req : Request;
  st_path : value;
  st_res : Response;
  st_sent : list value;
}.

Definition App (A : Type) : Type := AppState -> completion A * AppState.

#[global] Instance App_ret : MRet App := fun A a s => (Normal a, s).

#[global] Instance App_bind : MBind App := fun A B k m s =>
  match m s with
  | (Normal a, s') => k a s'
  | (Throw e, s') => (Throw e, s')
  end.

Definition app_throw {A : Type} (e : value) : App A := fun s => (Throw e, s).

(** [try { m } catch (e) { h e }] *)
Definition app_catch {A : Type} (m : App A) (h : value -> App A) : App A :=
  fun s =>
    match m s with
    | (Normal a, s') => (Normal a, s')
    | (Throw e, s') => h e s'
    end.

(** A computation that only logs, run on the trace of the state. *)
Definition lift {A : Type} (m : M A) : App A := fun s =>
  (fst (m (st_trace s)),
   {| st_trace := snd (m (st_trace s)); st_reads := st_reads s;
      st_req := st_req s; st_path := st_path s; st_res := st_res s;
      st_sent := st_sent s |}).

(** [Date.now()], and the time value of [new Date()]: the next reading of
    the clock, [clock n] being the reading number [n]. *)
Definition date_now (clock : nat -> Z) : App Z := fun s =>
  (Normal (clock (st_reads s)),
   {| st_trace := st_trace s; st_reads := S (st_reads s);
      st_req := st_req s; st_path := st_path s; st_res := st_res s;
      st_sent := st_sent s |}).

Definition get_req : App Request := fun s => (Normal (st_req s), s).

Definition get_res : App Response := fun s => (Normal (st_res s), s).

Definition get_path : App value := fun s => (Normal (st_path s), s).

(** [req.agentId = v] *)
Definition set_agentId (v : value) : App unit := fun s =>
  (Normal tt,
   {| st_trace := st_trace s; st_reads := st_reads s;
      st_req := {| agentId := v; originalUrl := originalUrl (st_req s);
                   ip := ip (st_req s); method := method (st_req s);
                   headers := headers (st_req s); params := params (st_req s);
                   body := body (st_req s) |};
      st_path := st_path s; st_res := st_res s; st_sent := st_sent s |}).

(** [res.statusCode] *)
Definition res_statusCode : App value := fun s => (Normal (statusCode (st_res s)), s).

(** [res.status(code)] *)
Definition res_status (code : Z) : App unit := fun s =>
  (Normal tt,
   {| st_trace := st_trace s; st_reads := st_reads s; st_req := st_req s;
      st_path := st_path s; st_res := {| statusCode := VNum code |};
      st_sent := st_sent s |}).

(** [res.send(body)] *)
Definition res_send (b : value) : App unit := fun s =>
  (Normal tt,
   {| st_trace := st_trace s; st_reads := st_reads s; st_req := st_req s;
      st_path := st_path s; st_res := st_res s;
      st_sent := st_sent s ++ [b] |}).

(** [v.k]: reading a property of [undefined] or [null] throws, a property
    the value does not have reads as [undefined]. *)
Definition read_prop (v : value) (k : string) : App value :=
  match v with
  | VUndefined | VNull => app_throw TypeError
  | VObj o => mret (default VUndefined (o !! k))
  | _ => mret VUndefined
  end.

(** [`${n}`] for an integer [n]. *)
Definition number_string (n : Z) : string := pretty n.

(** [lg[level](message, meta)]: the entry is [meta] with the message. *)
Definition log (lg : option Logger) (l : Level) (message : string) (meta : object)
  : App unit :=
  lift (call_logger lg l (<["message" := VStr message]> meta)).

(** [createLogEntry(options, req)] as a call: it reads the clock. *)
Definition createLogEntry_now (clock : nat -> Z) (options : LogEntryOptions)
    (req : Request) : App object :=
  now ← date_now clock;
  mret (createLogEntry now options req).

(** The second middleware of [app.ts]. *)
Definition agentIdMiddleware (next : App unit) : App unit :=
  set_agentId (VStr "UNKNOWN_AGENT") ;;
  next.

(** The lines every [/api/clients] handler ends its logging with. *)
Definition request_processed (env : Env) (clock : nat -> Z) (startTime : Z)
  : App unit :=
  endTime ← date_now clock;
  let latency := endTime - startTime in
  req ← get_req;
  path ← get_path;
  code ← res_statusCode;
  log (loggers env !! "apiPerformance") LInfo "Request processed"
    (obj_literal
       [ ("endpoint", path);
         ("method", method req);
         ("status", code);
         ("latency", VStr (number_string latency +:+ "ms")) ]).

(** [POST /api/clients] *)
Definition createClient (env : Env) (clock : nat -> Z) : App unit :=
  startTime ← date_now clock;
  req ← get_req;
  let clientData := body req in
  t ← date_now clock;
  let id := "client-" +:+ number_string t in
  e1 ← createLogEntry_now clock
          {| action := "CREATE_CLIENT_PROFILE"; clientId := id;
             additionalData := Some (obj_literal [ ("attributes", clientData) ]);
             status := None |} req;
  log (loggers env !! "clientProfile") LInfo "Client profile created" e1 ;;
  agent ← read_prop (headers req) "agentId";
  e2 ← createLogEntry_now clock
          {| action := "AUDIT_CREATE_CLIENT_PROFILE"; clientId := id;
             additionalData :=
               Some (obj_literal [ ("agentId", agent); ("clientData", clientData) ]);
             status := None |} req;
  log (loggers env !! "auditLog") LInfo "Audit log for client profile creation" e2 ;;
  request_processed env clock startTime ;;
  res_status 201 ;;
  res_send (VObj (obj_literal [ ("message", VStr "Client profile created");
                                ("clientId", VStr id) ])).

(** [POST /api/clients/:clientId/verify]; [id] is [req.params.clientId]. *)
Definition verifyClient (env : Env) (clock : nat -> Z) (id : string) : App unit :=
  startTime ← date_now clock;
  req ← get_req;
  let verificationData := body req in
  e1 ← createLogEntry_now clock
          {| action := "VERIFY_IDENTITY"; clientId := id;
             additionalData :=
               Some (obj_literal [ ("verificationData", verificationData) ]);
             status := None |} req;
  log (loggers env !! "identityVerification") LInfo
    "Initiating identity verification" e1 ;;
  let isVerified := true in
  e2 ← createLogEntry_now clock
          {| action := "VERIFY_IDENTITY"; clientId := id;
             additionalData :=
               Some (obj_literal
                       [ ("status", VStr (if isVerified then "VERIFIED" else "FAILED")) ]);
             status := Some (if isVerified then SUCCESS else FAILURE) |} req;
  log (loggers env !! "identityVerification") LInfo
    "Identity verification result" e2 ;;
  agent ← read_prop (headers req) "agentId";
  e3 ← createLogEntry_now clock
          {| action := "AUDIT_VERIFY_IDENTITY"; clientId := id;
             additionalData :=
               Some (obj_literal
                       [ ("agentId", agent);
                         ("verificationStatus",
                          VStr (if isVerified then "VERIFIED" else "FAILED")) ]);
             status := None |} req;
  log (loggers env !! "auditLog") LInfo "Audit log for identity verification" e3 ;;
  request_processed env clock startTime ;;
  res_send (VObj (obj_literal
                    [ ("message",
                       VStr ("Client " +:+
                             (if isVerified then "verified" else "not verified")));
                      ("clientId", VStr id) ])).

(** [PUT /api/clients/:clientId] *)
Definition updateClient (env : Env) (clock : nat -> Z) (id : string) : App unit :=
  startTime ← date_now clock;
  req ← get_req;
  let updatedData := body req in
  e1 ← createLogEntry_now clock
          {| action := "UPDATE_CLIENT_PROFILE"; clientId := id;
             additionalData := Some (obj_literal [ ("updatedData", updatedData) ]);
             status := None |} req;
  log (loggers env !! "clientProfile") LInfo "Updating client profile" e1 ;;
  agent ← read_prop (headers req) "agentId";
  e2 ← createLogEntry_now clock
          {| action := "AUDIT_UPDATE_CLIENT_PROFILE"; clientId := id;
             additionalData :=
               Some (obj_literal [ ("agentId", agent); ("updatedData", updatedData) ]);
             status := None |} req;
  log (loggers env !! "auditLog") LInfo "Audit log for updating client profile" e2 ;;
  request_processed env clock startTime ;;
  res_send (VObj (obj_literal [ ("message", VStr "Client profile updated");
                                ("clientId", VStr id) ])).

(** [GET /api/clients/:clientId] *)
Definition getClient (env : Env) (clock : nat -> Z) (id : string) : App unit :=
  startTime ← date_now clock;
  req ← get_req;
  e1 ← createLogEntry_now clock
          {| action := "VIEW_CLIENT_PROFILE"; clientId := id;
             additionalData := None; status := Some SUCCESS |} req;
  log (loggers env !! "clientProfile") LInfo "Retrieving client profile" e1 ;;
  agent ← read_prop (headers req) "agentId";
  e2 ← createLogEntry_now clock
          {| action := "AUDIT_VIEW_CLIENT_PROFILE"; clientId := id;
             additionalData := Some (obj_literal [ ("agentId", agent) ]);
             status := None |} req;
  log (loggers env !! "auditLog") LInfo "Audit log for viewing client profile" e2 ;;
  let clientData := VObj (obj_literal [ ("name", VStr "John Doe"); ("id", VStr id) ]) in
  request_processed env clock startTime ;;
  res_send clientData.

(** [DELETE /api/clients/:clientId] *)
Definition deleteClient (env : Env) (clock : nat -> Z) (id : string) : App unit :=
  startTime ← date_now clock;
  req ← get_req;
  e1 ← createLogEntry_now clock
          {| action := "DELETE_CLIENT_PROFILE"; clientId := id;
             additionalData := None; status := Some SUCCESS |} req;
  log (loggers env !! "clientProfile") LInfo "Deleting client profile" e1 ;;
  agent ← read_prop (headers req) "agentId";
  e2 ← createLogEntry_now clock
          {| action := "AUDIT_DELETE_CLIENT_PROFILE"; clientId := id;
             additionalData := Some (obj_literal [ ("agentId", agent) ]);
             status := None |} req;
  log (loggers env !! "auditLog") LInfo "Audit log for deleting client profile" e2 ;;
  request_processed env clock startTime ;;
  res_send (VObj (obj_literal [ ("message", VStr "Client profile deleted");
                                ("clientId", VStr id) ])).

(** The five [/api/clients] routes. *)
Inductive ClientRoute : Type :=
  | CreateClient
  | VerifyClient (id : string)
  | UpdateClient (id : string)
  | GetClient (id : string)
  | DeleteClient (id : string).

Definition client_handler (env : Env) (clock : nat -> Z) (route : ClientRoute)
  : App unit :=
  match route with
  | CreateClient => createClient env clock
  | VerifyClient id => verifyClient env clock id
  | UpdateClient id => updateClient env clock id
  | GetClient id => getClient env clock id
  | DeleteClient id => deleteClient env clock id
  end.

(** [new Error(message)], as far as the code reads it. *)
Definition new_Error (message : string) : value :=
  VObj (obj_literal [ ("message", VStr message) ]).

(** [new Date().toISOString()] *)
Definition iso_now (clock : nat -> Z) : App value :=
  now ← date_now clock;
  mret (VStr (Date.toISOString now)).

(** [GET /example] *)
Definition exampleRoute (env : Env) (clock : nat -> Z) : App unit :=
  startTime ← date_now clock;
  let agent := VStr "AGENT12345" in
  let client := VStr "CLIENT67890" in
  req ← get_req;
  ts1 ← iso_now clock;
  t1 ← date_now clock;
  log (loggers env !! "clientProfile") LInfo "Client profile viewed"
    (obj_literal
       [ ("action", VStr "VIEW"); ("clientId", client); ("agentId", agent);
         ("timestamp", ts1); ("status", VStr "SUCCESS"); ("requestIP", ip req);
         ("userRole", VStr "agent");
         ("latency", VStr (number_string (t1 - startTime) +:+ "ms")) ]) ;;
  ts2 ← iso_now clock;
  log (loggers env !! "communication") LInfo "Communication transaction"
    (obj_literal
       [ ("action", VStr "SEND_EMAIL_NOTIFICATION"); ("clientId", client);
         ("agentId", agent); ("emailSubject", VStr "Account Verification");
         ("emailStatus", VStr "SENT"); ("timestamp", ts2);
         ("status", VStr "SUCCESS"); ("requestIP", ip req) ]) ;;
  t3 ← date_now clock;
  ts3 ← iso_now clock;
  log (loggers env !! "accountTransactions") LInfo "Account action"
    (obj_literal
       [ ("action", VStr "CREATE"); ("clientId", client);
         ("accountId", VStr ("account-" +:+ number_string t3));
         ("agentId", agent); ("timestamp", ts3); ("status", VStr "SUCCESS");
         ("requestIP", ip req) ]) ;;
  ts4 ← iso_now clock;
  log (loggers env !! "identityVerification") LInfo "Identity verification"
    (obj_literal
       [ ("action", VStr "VERIFY"); ("clientId", client); ("agentId", agent);
         ("verificationStatus", VStr "APPROVED");
         ("verificationMethod", VStr "NRIC"); ("timestamp", ts4);
         ("status", VStr "SUCCESS"); ("requestIP", ip req) ]) ;;
  ts5 ← iso_now clock;
  log (loggers env !! "auditLog") LInfo "Audit log entry"
    (obj_literal
       [ ("action", VStr "ACCESS_RESOURCE"); ("resource", VStr "Client Profile");
         ("clientId", client); ("agentId", agent); ("timestamp", ts5);
         ("status", VStr "SUCCESS"); ("requestIP", ip req) ]) ;;
  app_catch
    (app_throw (new_Error "Simulated system error"))
    (fun error =>
       message ← read_prop error "message";
       ts6 ← iso_now clock;
       log (loggers env !! "systemErrors") LError "System error encountered"
         (obj_literal
            [ ("action", VStr "ERROR"); ("error", message); ("clientId", client);
              ("agentId", agent); ("timestamp", ts6); ("status", VStr "FAILURE");
              ("requestIP", ip req) ])) ;;
  endTime ← date_now clock;
  code ← res_statusCode;
  ts7 ← iso_now clock;
  log (loggers env !! "apiPerformance") LInfo "API performance log"
    (obj_literal
       [ ("endpoint", VStr "/example"); ("method", VStr "GET"); ("agentId", agent);
         ("status", code);
         ("latency", VStr (number_string (endTime - startTime) +:+ "ms"));
         ("timestamp", ts7); ("requestIP", ip req) ]) ;;
  res_send (VStr "Example endpoint accessed, logs generated in all streams.").

(** A request on its way through [app.ts], once [express.json()] has
    parsed its body: [logRequest], which ends by calling [next], then the
    middleware that sets [req.agentId], then the handler of the route. *)
Definition handle_request (env : Env) (handler : App unit) : App unit :=
  req ← get_req;
  res ← get_res;
  lift (logRequest env req res (mret tt)) ;;
  agentIdMiddleware handler.

(** The callback of [app.listen]. *)
Definition serverStartup (env : Env) (clock : nat -> Z) : App unit :=
  let PORT := js_or (env_get env "PORT") (VNum 3000) in
  e ← createLogEntry_now clock
         {| action := "SERVER_START"; clientId := "SYSTEM";
            additionalData := Some (obj_literal [ ("port", PORT) ]);
            status := Some SUCCESS |} empty_request;
  log (loggers env !! "systemErrors") LInfo "Server startup" e.

(** The stream of the entries a client route logs for itself, and how many
    of them it logs before its audit entry. *)
Definition route_stream (route : ClientRoute) : string :=
  match route with
  | VerifyClient _ => "identity-verification"
  | _ => "client-profile-management"
  end.

Definition route_entries (route : ClientRoute) : nat :=
  match route with
  | VerifyClient _ => 2
  | _ => 1
  end.

(** The number of clock readings of a client route: one at the start, one
    for each entry built by [createLogEntry], one at the end, and one more
    where the route names a new client. *)
Definition route_reads (route : ClientRoute) : nat :=
  match route with
  | CreateClient => 5
  | VerifyClient _ => 5
  | _ => 4
  end.

(** The state in which Express hands a request to the first middleware:
    nothing logged, the clock unread, status 200, nothing sent. *)
Definition arriving (req : Request) (path : value) : AppState :=
  {| st_trace := []; st_reads := 0; st_req := req; st_path := path;
     st_res := {| statusCode := VNum 200 |}; st_sent := [] |}.

(** The request with [req.agentId] assigned. *)
Definition with_agentId (v : value) (req : Request) : Request :=
  {| agentId := v; originalUrl := originalUrl req; ip := ip req;
     method := method req; headers := headers req; params := params req;
     body := body req |}.

(** A clock that never runs backwards. *)
Definition monotone (clock : nat -> Z) : Prop :=
  ∀ i j : nat, (i ≤ j)%nat → clock i ≤ clock j.

(** The [clientId] of the last body passed to [res.send]. *)
Definition sent_clientId (s : AppState) : option value :=
  match last (st_sent s) with
  | Some (VObj o) => o !! "clientId"
  | _ => None
  end.

(** ** Tactics *)

(** Reads a property of an object literal whose name is known. *)
Ltac literal_lookup :=
  unfold obj_literal; cbn [fold_left fst snd];
  repeat first
    [ rewrite lookup_insert_eq
    | rewrite lookup_insert_ne by (first [done | congruence])
    | rewrite lookup_empty ].

(** Peels the property definitions of a literal off both sides of an
    equation between lookups, one key at a time. *)
Ltac literal_cases :=
  unfold obj_literal; cbn [fold_left fst snd];
  rewrite ?lookup_insert, ?lookup_empty;
  repeat (case_decide; [first [done | congruence] |]).

Ltac in_table := unfold logger_table; repeat constructor.

(** Runs the statements of a handler on a state given by its fields. *)
Ltac app_unfold :=
  cbv [client_handler createClient verifyClient updateClient getClient deleteClient
       exampleRoute serverStartup handle_request agentIdMiddleware
       request_processed createLogEntry_now iso_now log lift call_logger
       read_prop app_throw app_catch throw date_now get_req get_res get_path
       set_agentId res_statusCode res_status res_send logRequest
       mbind mret App_bind App_ret M_bind M_ret
       st_trace st_reads st_req st_path st_res st_sent fst snd].


(** * Properties *)

Example toISOString_epoch :
  Date.toISOString 0 = "1970-01-01T00:00:00.000Z"%string.
Proof. vm_compute. reflexivity. Qed.

Example toISOString_2024 :
  Date.toISOString 1731153845678 = "2024-11-09T12:04:05.678Z"%string.
Proof. vm_compute. reflexivity. Qed.

Example toISOString_leap_day :
  Date.toISOString 951782400000 = "2000-02-29T00:00:00.000Z"%string.
Proof. vm_compute. reflexivity. Qed.

Example toISOString_before_epoch :
  Date.toISOString (-1) = "1969-12-31T23:59:59.999Z"%string.
Proof. vm_compute. reflexivity. Qed.

(** ** Objects *)

Lemma lookup_obj_spread (o : object) (src : option object) (k : string) :
  obj_spread o src !! k =
  match src ≫= (.!! k) with
  | Some v => Some v
  | None => o !! k
  end.
Proof.
  destruct src as [s|]; simpl; [|done].
  rewrite lookup_union. destruct (s !! k), (o !! k); done.
Qed.

(** ** The clock *)

Lemma toISOString_nonempty (t : Z) : Date.toISOString t ≠ "".
Proof.
  unfold Date.toISOString.
  destruct (Date.civil_from_days _) as [[y m] d].
  destruct (Date.year_string y); discriminate.
Qed.

(** ** [createLogEntry] *)

Lemma fixed_fields_timestamp now o r :
  fixed_fields now o r !! "timestamp" = Some (VStr (Date.toISOString now)).
Proof. unfold fixed_fields. literal_lookup. done. Qed.

Lemma fixed_fields_agentId now o r :
  fixed_fields now o r !! "agentId" = Some (js_or (agentId r) (VStr "UNKNOWN_AGENT")).
Proof. unfold fixed_fields. literal_lookup. done. Qed.

Lemma fixed_fields_clientId now o r :
  fixed_fields now o r !! "clientId" = Some (VStr (clientId o)).
Proof. unfold fixed_fields. literal_lookup. done. Qed.

Lemma fixed_fields_action now o r :
  fixed_fields now o r !! "action" = Some (VStr (action o)).
Proof. unfold fixed_fields. literal_lookup. done. Qed.

Lemma fixed_fields_endpoint now o r :
  fixed_fields now o r !! "endpoint" = Some (originalUrl r).
Proof. unfold fixed_fields. literal_lookup. done. Qed.

Lemma fixed_fields_status now o r :
  fixed_fields now o r !! "status" =
  Some (js_or (opt_str (status_string <$> status o)) (VStr "SUCCESS")).
Proof. unfold fixed_fields. literal_lookup. done. Qed.

Lemma fixed_fields_requestIP now o r :
  fixed_fields now o r !! "requestIP" = Some (ip r).
Proof. unfold fixed_fields. literal_lookup. done. Qed.

Lemma fixed_fields_userRole now o r :
  fixed_fields now o r !! "userRole" = Some (VStr "agent").
Proof. unfold fixed_fields. literal_lookup. done. Qed.

Lemma fixed_fields_other now o r k :
  k ∉ fixed_keys → fixed_fields now o r !! k = None.
Proof.
  intros Hk. unfold fixed_fields.
  unfold obj_literal; cbn [fold_left fst snd].
  rewrite ?lookup_insert, ?lookup_empty.
  repeat (case_decide;
          [exfalso; apply Hk; subst k; unfold fixed_keys; repeat constructor |]).
  done.
Qed.

Lemma fixed_fields_present now o r k :
  k ∈ fixed_keys → is_Some (fixed_fields now o r !! k).
Proof.
  unfold fixed_keys. rewrite !elem_of_cons, elem_of_nil.
  intros [->|[->|[->|[->|[->|[->|[->|[->|[]]]]]]]]].
  - rewrite fixed_fields_timestamp; eauto.
  - rewrite fixed_fields_agentId; eauto.
  - rewrite fixed_fields_clientId; eauto.
  - rewrite fixed_fields_action; eauto.
  - rewrite fixed_fields_endpoint; eauto.
  - rewrite fixed_fields_status; eauto.
  - rewrite fixed_fields_requestIP; eauto.
  - rewrite fixed_fields_userRole; eauto.
Qed.

Lemma stream_not_fixed : "stream" ∉ fixed_keys.
Proof. unfold fixed_keys. rewrite !not_elem_of_cons. repeat split; try done. apply not_elem_of_nil. Qed.

(** Only [timestamp] depends on the clock. *)
Lemma fixed_fields_clock now1 now2 o r k :
  k ≠ "timestamp" → fixed_fields now1 o r !! k = fixed_fields now2 o r !! k.
Proof. intros Hk. unfold fixed_fields. literal_cases. done. Qed.

(** Only [agentId], [endpoint] and [requestIP] depend on the request. *)
Lemma fixed_fields_userRole_request now o r1 r2 :
  fixed_fields now o r1 !! "userRole" = fixed_fields now o r2 !! "userRole".
Proof. by rewrite !fixed_fields_userRole. Qed.

Lemma createLogEntry_lookup now o r k :
  createLogEntry now o r !! k =
  match additionalData o ≫= (.!! k) with
  | Some v => Some v
  | None => fixed_fields now o r !! k
  end.
Proof. apply lookup_obj_spread. Qed.

Lemma createLogEntry_lacks now o r k :
  extra_lacks o k → createLogEntry now o r !! k = fixed_fields now o r !! k.
Proof. intros H. rewrite createLogEntry_lookup. unfold extra_lacks in H. by rewrite H. Qed.

Lemma createLogEntry_extra now o r extra k v :
  additionalData o = Some extra → extra !! k = Some v →
  createLogEntry now o r !! k = Some v.
Proof. intros Hx Hk. rewrite createLogEntry_lookup, Hx. simpl. by rewrite Hk. Qed.

(** C1, as the code has it.  The spread of [additionalData] comes last in
    the literal of [createLogEntry], so on a fixed envelope field that
    [additionalData] also defines, the value of [additionalData] is the one
    the entry carries; the fixed value is carried for the fixed fields that
    [additionalData] does not define. *)
Theorem createLogEntry_extra_precedence now o r k :
  k ∈ fixed_keys →
  (∀ extra v, additionalData o = Some extra → extra !! k = Some v →
     createLogEntry now o r !! k = Some v) ∧
  (extra_lacks o k →
     createLogEntry now o r !! k = fixed_fields now o r !! k ∧
     is_Some (createLogEntry now o r !! k)).
Proof.
  intros Hk. split.
  - intros extra v. apply createLogEntry_extra.
  - intros Hl. rewrite (createLogEntry_lacks _ _ _ _ Hl).
    split; [done | by apply fixed_fields_present].
Qed.

Lemma createLogEntry_extra_precedence_witness :
  createLogEntry 0 verify_result_options agent_request !! "status"
  = Some (VStr "VERIFIED").
Proof.
  refine (proj1 (createLogEntry_extra_precedence 0 verify_result_options
                   agent_request "status" _) _ _ eq_refl _).
  - unfold fixed_keys. repeat constructor.
  - reflexivity.
Defined.

(** C1 as stated fails: [status] is a fixed field, its fixed value is
    ["SUCCESS"], and the entry carries the ["VERIFIED"] of
    [additionalData]. *)
Lemma createLogEntry_fixed_status_overridden :
  "status" ∈ fixed_keys ∧
  fixed_fields 0 verify_result_options agent_request !! "status"
  = Some (VStr "SUCCESS") ∧
  createLogEntry 0 verify_result_options agent_request !! "status"
  = Some (VStr "VERIFIED").
Proof.
  split; [unfold fixed_keys; repeat constructor |].
  split; [by rewrite fixed_fields_status |].
  by apply (createLogEntry_extra _ _ _ {[ "status" := VStr "VERIFIED" ]}).
Qed.

(** C3, as the code has it.  [createLogEntry] is total: for every options
    value and every request, the request with no property at all included,
    it returns an entry with the eight fixed fields.  The entry has no
    [stream] field of its own.  Where [additionalData] does not define
    them, [timestamp] is the non-empty ISO string of the call time,
    [action] is the caller's action, an [agentId] the request lacks becomes
    ["UNKNOWN_AGENT"], a status the caller omits becomes ["SUCCESS"], and
    [endpoint] and [requestIP] are whatever the request has, [undefined]
    when it has none. *)
Theorem createLogEntry_populated now o r :
  (∀ k, k ∈ fixed_keys → is_Some (createLogEntry now o r !! k)) ∧
  (extra_lacks o "stream" → createLogEntry now o r !! "stream" = None) ∧
  (extra_lacks o "timestamp" →
     ∃ ts, createLogEntry now o r !! "timestamp" = Some (VStr ts) ∧ ts ≠ "") ∧
  (extra_lacks o "action" →
     createLogEntry now o r !! "action" = Some (VStr (action o))) ∧
  (extra_lacks o "agentId" → truthy (agentId r) = false →
     createLogEntry now o r !! "agentId" = Some (VStr "UNKNOWN_AGENT")) ∧
  (extra_lacks o "status" → status o = None →
     createLogEntry now o r !! "status" = Some (VStr "SUCCESS")) ∧
  (extra_lacks o "endpoint" →
     createLogEntry now o r !! "endpoint" = Some (originalUrl r)) ∧
  (extra_lacks o "requestIP" →
     createLogEntry now o r !! "requestIP" = Some (ip r)).
Proof.
  refine (conj _ (conj _ (conj _ (conj _ (conj _ (conj _ (conj _ _))))))).
  - intros k Hk. rewrite createLogEntry_lookup.
    destruct (additionalData o ≫= _); [eauto | by apply fixed_fields_present].
  - intros Hl. rewrite (createLogEntry_lacks _ _ _ _ Hl).
    apply fixed_fields_other, stream_not_fixed.
  - intros Hl. exists (Date.toISOString now).
    rewrite (createLogEntry_lacks _ _ _ _ Hl), fixed_fields_timestamp.
    split; [done | apply toISOString_nonempty].
  - intros Hl. by rewrite (createLogEntry_lacks _ _ _ _ Hl), fixed_fields_action.
  - intros Hl Ha.
    rewrite (createLogEntry_lacks _ _ _ _ Hl), fixed_fields_agentId.
    unfold js_or. by rewrite Ha.
  - intros Hl Hs.
    rewrite (createLogEntry_lacks _ _ _ _ Hl), fixed_fields_status.
    by rewrite Hs.
  - intros Hl. by rewrite (createLogEntry_lacks _ _ _ _ Hl), fixed_fields_endpoint.
  - intros Hl. by rewrite (createLogEntry_lacks _ _ _ _ Hl), fixed_fields_requestIP.
Qed.

Lemma createLogEntry_populated_witness :
  createLogEntry 0 server_start_options empty_request !! "stream" = None ∧
  (∃ ts, createLogEntry 0 server_start_options empty_request !! "timestamp"
         = Some (VStr ts) ∧ ts ≠ "") ∧
  createLogEntry 0 server_start_options empty_request !! "action"
  = Some (VStr "SERVER_START") ∧
  createLogEntry 0 server_start_options empty_request !! "agentId"
  = Some (VStr "UNKNOWN_AGENT") ∧
  createLogEntry 0 (audit_view_options VUndefined) empty_request !! "status"
  = Some (VStr "SUCCESS") ∧
  createLogEntry 0 server_start_options empty_request !! "endpoint"
  = Some VUndefined.
Proof.
  pose proof (createLogEntry_populated 0 server_start_options empty_request)
    as (_ & Hstream & Hts & Hact & Hagent & _ & Hurl & _).
  pose proof (createLogEntry_populated 0 (audit_view_options VUndefined)
                empty_request) as (_ & _ & _ & _ & _ & Hstatus & _).
  refine (conj _ (conj _ (conj _ (conj _ (conj _ _))))).
  - apply Hstream. reflexivity.
  - apply Hts. reflexivity.
  - apply Hact. reflexivity.
  - apply Hagent; reflexivity.
  - apply Hstatus; reflexivity.
  - apply Hurl. reflexivity.
Defined.

(** C3 as stated fails: the entry logged at server start has a non-empty
    action and no [stream] field. *)
Lemma createLogEntry_no_stream :
  action server_start_options ≠ "" ∧
  createLogEntry 0 server_start_options empty_request !! "stream" = None.
Proof.
  split; [done |].
  rewrite createLogEntry_lacks by reflexivity.
  apply fixed_fields_other, stream_not_fixed.
Qed.

(** The whole entry of the server start-up call, at the epoch. *)
Example createLogEntry_server_start :
  createLogEntry 0 server_start_options empty_request
  = obj_literal
      [ ("timestamp", VStr "1970-01-01T00:00:00.000Z");
        ("agentId", VStr "UNKNOWN_AGENT");
        ("clientId", VStr "SYSTEM");
        ("action", VStr "SERVER_START");
        ("endpoint", VUndefined);
        ("status", VStr "SUCCESS");
        ("requestIP", VUndefined);
        ("userRole", VStr "agent");
        ("port", VNum 3000) ].
Proof. vm_compute. reflexivity. Qed.

(** An empty action is carried as it is, and a [timestamp] of
    [additionalData] replaces the clock's. *)
Example createLogEntry_empty_action :
  createLogEntry 0
    {| action := ""; clientId := "SYSTEM"; additionalData := None; status := None |}
    empty_request !! "action" = Some (VStr "").
Proof. by rewrite createLogEntry_lacks, fixed_fields_action. Qed.

Example createLogEntry_timestamp_overridden :
  createLogEntry 0
    {| action := "VIEW"; clientId := "client-1";
       additionalData := Some {[ "timestamp" := VStr "" ]}; status := None |}
    agent_request !! "timestamp" = Some (VStr "").
Proof. by apply (createLogEntry_extra _ _ _ {[ "timestamp" := VStr "" ]}). Qed.

(** C8, as the code has it.  Where [additionalData] defines no [agentId],
    the entry's [agentId] is ["UNKNOWN_AGENT"] when the request's is
    [undefined] or empty, and the request's own when that is a non-empty
    string.  An [agentId] of [additionalData] replaces either. *)
Theorem createLogEntry_agentId now o r :
  (extra_lacks o "agentId" →
     (agentId r = VUndefined ∨ agentId r = VStr "" →
        createLogEntry now o r !! "agentId" = Some (VStr "UNKNOWN_AGENT")) ∧
     (∀ a, a ≠ "" → agentId r = VStr a →
        createLogEntry now o r !! "agentId" = Some (VStr a))) ∧
  (∀ extra v, additionalData o = Some extra → extra !! "agentId" = Some v →
     createLogEntry now o r !! "agentId" = Some v).
Proof.
  split.
  - intros Hl. rewrite (createLogEntry_lacks _ _ _ _ Hl), fixed_fields_agentId.
    split.
    + by intros [-> | ->].
    + intros a Ha ->. unfold js_or. simpl.
      by destruct a.
  - intros extra v. apply createLogEntry_extra.
Qed.

Lemma createLogEntry_agentId_witness :
  createLogEntry 0 server_start_options empty_request !! "agentId"
  = Some (VStr "UNKNOWN_AGENT") ∧
  createLogEntry 0 server_start_options agent_request !! "agentId"
  = Some (VStr "AGENT12345") ∧
  createLogEntry 0 (audit_view_options (VStr "AGENT-7")) empty_request !! "agentId"
  = Some (VStr "AGENT-7").
Proof.
  refine (conj _ (conj _ _)).
  - refine (proj1 (proj1 (createLogEntry_agentId 0 server_start_options
                            empty_request) _) _).
    + reflexivity.
    + left. reflexivity.
  - refine (proj2 (proj1 (createLogEntry_agentId 0 server_start_options
                            agent_request) _) "AGENT12345" _ _).
    + reflexivity.
    + discriminate.
    + reflexivity.
  - refine (proj2 (createLogEntry_agentId 0 (audit_view_options (VStr "AGENT-7"))
                     empty_request) {[ "agentId" := VStr "AGENT-7" ]} _ _ _).
    + reflexivity.
    + reflexivity.
Defined.

(** C8 as stated fails.  For a request without [agentId], the audit entry
    carries the [agentId] header that [app.ts] puts into [additionalData]
    and not ["UNKNOWN_AGENT"]; for a request whose [agentId] is
    ["AGENT12345"] and has no such header, it carries [undefined]. *)
Lemma createLogEntry_agentId_overridden :
  agentId empty_request = VUndefined ∧
  createLogEntry 0 (audit_view_options (VStr "AGENT-7")) empty_request !! "agentId"
  = Some (VStr "AGENT-7") ∧
  agentId agent_request = VStr "AGENT12345" ∧
  createLogEntry 0 (audit_view_options VUndefined) agent_request !! "agentId"
  = Some VUndefined.
Proof.
  refine (conj eq_refl (conj _ (conj eq_refl _))).
  - by apply (createLogEntry_extra _ _ _ {[ "agentId" := VStr "AGENT-7" ]}).
  - by apply (createLogEntry_extra _ _ _ {[ "agentId" := VUndefined ]}).
Qed.

(** C9.  Two entries built from the same options and the same request
    agree on every field but [timestamp], whatever the two call times, and
    are equal when the two timestamps are. *)
Theorem createLogEntry_deterministic now1 now2 o r :
  delete "timestamp" (createLogEntry now1 o r)
  = delete "timestamp" (createLogEntry now2 o r) ∧
  (Date.toISOString now1 = Date.toISOString now2 →
     createLogEntry now1 o r = createLogEntry now2 o r).
Proof.
  split.
  - apply map_eq. intros k. rewrite !lookup_delete. case_decide; [done |].
    rewrite !createLogEntry_lookup.
    destruct (additionalData o ≫= _); [done |].
    apply fixed_fields_clock. congruence.
  - intros Hts. unfold createLogEntry, fixed_fields. by rewrite Hts.
Qed.

Lemma createLogEntry_deterministic_witness :
  delete "timestamp" (createLogEntry 0 verify_result_options agent_request)
  = delete "timestamp" (createLogEntry 1731153845678 verify_result_options agent_request) ∧
  createLogEntry 1731153845678 server_start_options empty_request
  = createLogEntry 1731153845678 server_start_options empty_request.
Proof.
  split.
  - apply (proj1 (createLogEntry_deterministic 0 1731153845678
                    verify_result_options agent_request)).
  - apply (proj2 (createLogEntry_deterministic 1731153845678 1731153845678
                    server_start_options empty_request)).
    reflexivity.
Defined.

(** C10.  The entry's [userRole] is the constant ["agent"] unless
    [additionalData] defines a [userRole], which then replaces it; it is the
    same for every request. *)
Theorem createLogEntry_userRole now o r :
  createLogEntry now o r !! "userRole"
  = Some (default (VStr "agent") (additionalData o ≫= (.!! "userRole"))) ∧
  (∀ r', createLogEntry now o r' !! "userRole"
         = createLogEntry now o r !! "userRole").
Proof.
  split.
  - rewrite createLogEntry_lookup, fixed_fields_userRole.
    by destruct (additionalData o ≫= _).
  - intros r'. rewrite !createLogEntry_lookup.
    by rewrite (fixed_fields_userRole_request now o r' r).
Qed.

Example createLogEntry_userRole_agent :
  createLogEntry 0 server_start_options empty_request !! "userRole"
  = Some (VStr "agent").
Proof. by rewrite createLogEntry_lacks, fixed_fields_userRole. Qed.

(** ** The registry of loggers *)

Lemma createLoggerForStream_group env :
  js_or (env_get env "CLOUDWATCH_LOG_GROUP_NAME") (VStr "MyAppLogs")
  = VStr (group_name env).
Proof.
  unfold env_get, group_name, js_or.
  destruct (env !! "CLOUDWATCH_LOG_GROUP_NAME") as [g|]; simpl; [|done].
  case_decide as Hg; [by subst g |].
  destruct g; [done | reflexivity].
Qed.

Lemma createLoggerForStream_streams env name :
  logger_streams (createLoggerForStream env name) = [name].
Proof. reflexivity. Qed.

Lemma loggers_lookup env key name :
  (key, name) ∈ logger_table →
  loggers env !! key = Some (createLoggerForStream env name).
Proof.
  unfold logger_table. rewrite !elem_of_cons, elem_of_nil.
  intros H. unfold loggers.
  repeat (destruct H as [[= -> ->] | H]; [by literal_lookup |]).
  done.
Qed.

Lemma loggers_inv env key lg :
  loggers env !! key = Some lg →
  ∃ name, (key, name) ∈ logger_table ∧ lg = createLoggerForStream env name.
Proof.
  unfold loggers, obj_literal; cbn [fold_left fst snd].
  rewrite ?lookup_insert, ?lookup_empty.
  repeat (case_decide;
          [ intros [= <-]; subst key; eexists; split; [| reflexivity];
            unfold logger_table; rewrite !elem_of_cons; tauto |]).
  done.
Qed.

Lemma loggers_size env : size (loggers env) = 7%nat.
Proof.
  unfold loggers, obj_literal; cbn [fold_left fst snd].
  repeat (rewrite map_size_insert_None by by literal_lookup).
  by rewrite map_size_empty.
Qed.

Lemma logging_streams_NoDup : NoDup logging_streams.
Proof. apply (bool_decide_unpack (NoDup logging_streams)). by vm_compute. Qed.

Lemma logging_streams_table name :
  name ∈ logging_streams → ∃ key, (key, name) ∈ logger_table.
Proof.
  unfold logging_streams. rewrite !elem_of_cons, elem_of_nil. intros H.
  repeat (destruct H as [-> | H];
          [eexists; unfold logger_table; repeat constructor |]).
  done.
Qed.

Lemma logger_table_stream key name :
  (key, name) ∈ logger_table → name ∈ logging_streams.
Proof.
  unfold logger_table. rewrite !elem_of_cons, elem_of_nil. intros H.
  repeat (destruct H as [[= -> ->] | H];
          [unfold logging_streams; repeat constructor |]).
  done.
Qed.

Lemma logger_table_key key key' name :
  (key, name) ∈ logger_table → (key', name) ∈ logger_table → key = key'.
Proof.
  unfold logger_table. rewrite !elem_of_cons, !elem_of_nil. intros H H'.
  repeat (destruct H as [H | H];
          [repeat (destruct H' as [H'' | H']; [by simplify_eq |]); done |]).
  done.
Qed.

(** C2, as the code has it.  The construction of the loggers validates
    nothing and cannot fail on the configuration: for every environment it
    yields all seven loggers, each with the console and the CloudWatch
    transport.  A log group that is missing or empty is replaced by
    ["MyAppLogs"]; region and credentials are handed to the transport as
    they are read, [undefined] when missing. *)
Theorem loggers_no_validation env :
  size (loggers env) = 7%nat ∧
  (∀ key lg, loggers env !! key = Some lg →
     ∃ stream, stream ∈ logging_streams ∧
       lg = {| level := LInfo;
               format := FormatJson;
               transports :=
                 [ Console;
                   CloudWatch
                     {| logGroupName := VStr (group_name env);
                        logStreamName := stream;
                        awsRegion := opt_str (env !! "AWS_REGION");
                        jsonMessage := true;
                        awsAccessKeyId := opt_str (env !! "AWS_ACCESS_KEY_ID");
                        awsSecretAccessKey := opt_str (env !! "AWS_SECRET_ACCESS_KEY");
                        uploadRate := 1000 |} ] |}).
Proof.
  split; [apply loggers_size |].
  intros key lg (name & Ht & ->)%loggers_inv.
  exists name. split; [by eapply logger_table_stream |].
  unfold createLoggerForStream. by rewrite createLoggerForStream_group.
Qed.

Lemma loggers_no_validation_witness :
  ∃ stream, stream ∈ logging_streams ∧
    createLoggerForStream {[ "AWS_REGION" := "ap-southeast-1" ]} "audit-log"
    = {| level := LInfo;
         format := FormatJson;
         transports :=
           [ Console;
             CloudWatch
               {| logGroupName := VStr "MyAppLogs";
                  logStreamName := stream;
                  awsRegion := VStr "ap-southeast-1";
                  jsonMessage := true;
                  awsAccessKeyId := VUndefined;
                  awsSecretAccessKey := VUndefined;
                  uploadRate := 1000 |} ] |}.
Proof.
  exact (proj2 (loggers_no_validation {[ "AWS_REGION" := "ap-southeast-1" ]})
           "auditLog"
           (createLoggerForStream {[ "AWS_REGION" := "ap-southeast-1" ]} "audit-log")
           eq_refl).
Defined.

(** C2 as stated fails: with an empty environment, where region,
    credentials and log group are all missing, the seven loggers are built
    all the same; the audit logger gets the default group and no region or
    credentials. *)
Lemma loggers_built_without_configuration :
  size (loggers ∅) = 7%nat ∧
  loggers ∅ !! "auditLog"
  = Some {| level := LInfo;
            format := FormatJson;
            transports :=
              [ Console;
                CloudWatch
                  {| logGroupName := VStr "MyAppLogs";
                     logStreamName := "audit-log";
                     awsRegion := VUndefined;
                     jsonMessage := true;
                     awsAccessKeyId := VUndefined;
                     awsSecretAccessKey := VUndefined;
                     uploadRate := 1000 |} ] |}.
Proof. split; [apply loggers_size | reflexivity]. Qed.

(** C5.  The registry holds exactly seven loggers, one for each of the
    seven log streams and none for any other: every stream has a property
    of [loggers] holding a logger that uploads to that stream and to no
    other, that property is the only one whose logger uploads to the stream,
    and every logger of the registry belongs to one of the seven streams.
    The registry is a value fixed by the environment at load time. *)
Theorem loggers_one_per_stream env :
  size (loggers env) = 7%nat ∧
  length logging_streams = 7%nat ∧
  NoDup logging_streams ∧
  (∀ name, name ∈ logging_streams →
     ∃ key lg,
       loggers env !! key = Some lg ∧
       logger_streams lg = [name] ∧
       (∀ key' lg', loggers env !! key' = Some lg' →
                    name ∈ logger_streams lg' → key' = key)) ∧
  (∀ key lg, loggers env !! key = Some lg →
     ∃ name, name ∈ logging_streams ∧ logger_streams lg = [name]).
Proof.
  refine (conj (loggers_size env) (conj eq_refl (conj logging_streams_NoDup
            (conj _ _)))).
  - intros name [key Hk]%logging_streams_table.
    exists key, (createLoggerForStream env name).
    split; [by apply loggers_lookup |]. split; [done |].
    intros key' lg' (name' & Hk' & ->)%loggers_inv.
    rewrite createLoggerForStream_streams, list_elem_of_singleton.
    intros ->. by eapply logger_table_key.
  - intros key lg (name & Hk & ->)%loggers_inv.
    exists name. split; [by eapply logger_table_stream | done].
Qed.

Lemma loggers_one_per_stream_witness :
  ∃ key lg,
    loggers ∅ !! key = Some lg ∧
    logger_streams lg = ["system-errors"] ∧
    (∀ key' lg', loggers ∅ !! key' = Some lg' →
                 "system-errors" ∈ logger_streams lg' → key' = key).
Proof.
  apply (proj1 (proj2 (proj2 (proj2 (loggers_one_per_stream ∅))))).
  unfold logging_streams. repeat constructor.
Defined.

(** ** [logRequest] *)

Lemma incoming_request_fields req :
  incoming_request req !! "message" = Some (VStr "Incoming request") ∧
  incoming_request req !! "method" = Some (method req) ∧
  incoming_request req !! "url" = Some (originalUrl req) ∧
  incoming_request req !! "headers" = Some (headers req) ∧
  incoming_request req !! "params" = Some (params req) ∧
  incoming_request req !! "body" = Some (body req).
Proof. unfold incoming_request. repeat split; by literal_lookup. Qed.

Lemma calls_to_app stream (s t : list LogCall) :
  calls_to stream (s ++ t) = calls_to stream s ++ calls_to stream t.
Proof. apply filter_app. Qed.

(** C6, as the code has it.  For every request and every continuation,
    [logRequest] logs one entry at level [info] through the logger of the
    [system-errors] stream, holding the request's method, URL, headers,
    params and body, and then runs [next] once, on the trace so extended;
    how [next] completes and what it logs is the outcome of [logRequest],
    unchanged.  The hook logs nothing else: it adds one call to the
    [system-errors] stream and none to [api-performance]. *)
Theorem logRequest_logs_then_next env req res next s :
  logRequest env req res next s
  = next (s ++ [ {| lc_logger := createLoggerForStream env "system-errors";
                    lc_level := LInfo;
                    lc_info := incoming_request req |} ]) ∧
  (incoming_request req !! "message" = Some (VStr "Incoming request") ∧
   incoming_request req !! "method" = Some (method req) ∧
   incoming_request req !! "url" = Some (originalUrl req) ∧
   incoming_request req !! "headers" = Some (headers req) ∧
   incoming_request req !! "params" = Some (params req) ∧
   incoming_request req !! "body" = Some (body req)) ∧
  (∀ stream,
     calls_to stream
       (s ++ [ {| lc_logger := createLoggerForStream env "system-errors";
                  lc_level := LInfo;
                  lc_info := incoming_request req |} ])
     = calls_to stream s ++
       (if decide (stream = "system-errors")
        then [ {| lc_logger := createLoggerForStream env "system-errors";
                  lc_level := LInfo;
                  lc_info := incoming_request req |} ]
        else [])).
Proof.
  split; [| split; [apply incoming_request_fields |]].
  - unfold logRequest.
    rewrite (loggers_lookup env "systemErrors" "system-errors")
      by (unfold logger_table; repeat constructor).
    reflexivity.
  - intros stream. rewrite calls_to_app. f_equal.
    unfold calls_to. rewrite filter_cons, filter_nil. cbn [lc_logger].
    rewrite createLoggerForStream_streams.
    repeat case_decide; try done.
    + exfalso. by rewrite list_elem_of_singleton in *.
    + exfalso. by rewrite list_elem_of_singleton in *.
Qed.

(** C6 as stated fails: for a request whose handler logs nothing, the
    trace [logRequest] leaves holds its one [system-errors] entry and no
    [api-performance] entry. *)
Lemma logRequest_no_performance_entry :
  (logRequest ∅ agent_request {| statusCode := VNum 200 |} (mret tt) []).1
  = Normal tt ∧
  length (calls_to "system-errors"
            (logRequest ∅ agent_request {| statusCode := VNum 200 |} (mret tt) []).2)
  = 1%nat ∧
  calls_to "api-performance"
    (logRequest ∅ agent_request {| statusCode := VNum 200 |} (mret tt) []).2
  = [].
Proof. repeat split. Qed.

(** A handler that throws: the entry has been logged, and the exception
    is the outcome of [logRequest]. *)
Example logRequest_throwing_handler env req res e s :
  logRequest env req res (throw e) s
  = (Throw e,
     s ++ [ {| lc_logger := createLoggerForStream env "system-errors";
               lc_level := LInfo;
               lc_info := incoming_request req |} ]).
Proof.
  unfold logRequest.
  rewrite (loggers_lookup env "systemErrors" "system-errors")
    by (unfold logger_table; repeat constructor).
  reflexivity.
Qed.

(** ** Delivery to the console *)

(** The loggers of the registry let [error], [warn] and [info] through. *)
Lemma createLoggerForStream_enabled env name l :
  level_enabled (createLoggerForStream env name) l = true
  ↔ l = LError ∨ l = LWarn ∨ l = LInfo.
Proof.
  unfold level_enabled. cbn [level createLoggerForStream].
  destruct l; cbn; split; intros H; try done; try tauto;
    destruct H as [H | [H | H]]; discriminate.
Qed.

Lemma registry_call_dispatch env c :
  registry_call env c →
  ∃ opts, dispatch c = [ (Console, stamp c); (CloudWatch opts, stamp c) ].
Proof.
  intros [[key (name & _ & Hlg)%loggers_inv] Hen].
  unfold dispatch. rewrite Hen, Hlg. eexists. reflexivity.
Qed.

Lemma registry_call_deliver env {R : Type} `{!RemoteTransport R} (w : World R) c :
  registry_call env c →
  console_out (deliver w c) = console_out w ++ [stamp c].
Proof.
  intros [opts Hd]%registry_call_dispatch.
  unfold deliver. by rewrite Hd.
Qed.

Lemma deliver_all_snoc {R : Type} `{!RemoteTransport R} (w : World R) trace c :
  deliver_all w (trace ++ [c]) = deliver (deliver_all w trace) c.
Proof. unfold deliver_all. by rewrite fold_left_app. Qed.

(** C4.  For every call made through a logger of the registry at a level
    the logger lets through, winston hands the entry to the console
    transport first and to the CloudWatch transport second.  So whatever the
    remote transport is and does, after any sequence of such calls the
    console has been handed exactly those entries, in the order of the
    calls: as many console writes as calls. *)
Theorem console_receives_every_entry env (R : Type) (T : RemoteTransport R)
    (w : World R) (trace : list LogCall) :
  Forall (registry_call env) trace →
  Forall (λ c, ∃ opts,
            dispatch c = [ (Console, stamp c); (CloudWatch opts, stamp c) ]) trace ∧
  console_out (deliver_all w trace) = console_out w ++ (stamp <$> trace) ∧
  length (console_out (deliver_all w trace))
  = (length (console_out w) + length trace)%nat.
Proof.
  intros Htrace.
  assert (console_out (deliver_all w trace) = console_out w ++ (stamp <$> trace))
    as Hout.
  { revert Htrace. induction trace as [| c trace IH] using rev_ind.
    - intros _. cbn. by rewrite app_nil_r.
    - intros [Htrace Hc]%Forall_app. rewrite Forall_singleton in Hc.
      rewrite deliver_all_snoc, (registry_call_deliver env) by done.
      by rewrite IH, fmap_app, app_assoc. }
  split; [| split; [done |]].
  - eapply Forall_impl; [done |]. intros c. apply registry_call_dispatch.
  - by rewrite Hout, length_app, length_fmap.
Qed.

Lemma console_receives_every_entry_witness :
  console_out (deliver_all {| console_out := []; remote := tt |} (startup_trace ∅))
  = stamp <$> startup_trace ∅ ∧
  length (console_out
            (deliver_all {| console_out := []; remote := tt |} (startup_trace ∅)))
  = 2%nat.
Proof.
  refine (proj2 (console_receives_every_entry ∅ unit remote_disabled
                   {| console_out := []; remote := tt |} (startup_trace ∅) _)).
  unfold startup_trace.
  repeat (apply Forall_cons; split;
          [split; [exists "systemErrors"; reflexivity | reflexivity] |]).
  apply Forall_nil_2.
Defined.

(** An entry logged at [debug] reaches no transport: the loggers are
    created with level [info]. *)
Example debug_entry_discarded env name info :
  dispatch {| lc_logger := createLoggerForStream env name;
              lc_level := LDebug;
              lc_info := info |} = [].
Proof. reflexivity. Qed.

(** * Further properties *)

(** ** The entry as a whole *)

(** The property names of an entry are the eight fixed names and the
    names of [additionalData], and no property of [additionalData] is lost
    or changed. *)
Theorem createLogEntry_keys now o r :
  dom (createLogEntry now o r)
  = list_to_set fixed_keys ∪ dom (default ∅ (additionalData o)) ∧
  default ∅ (additionalData o) ⊆ createLogEntry now o r.
Proof.
  split.
  - apply set_eq. intros k.
    rewrite elem_of_union, !elem_of_dom, elem_of_list_to_set.
    rewrite createLogEntry_lookup.
    destruct (decide (k ∈ fixed_keys)) as [Hk | Hk].
    + pose proof (fixed_fields_present now o r k Hk) as Hf.
      split; [tauto |]. intros _.
      destruct (additionalData o ≫= _); [eauto | done].
    + rewrite (fixed_fields_other now o r k Hk).
      destruct (additionalData o) as [extra |]; cbn.
      * destruct (extra !! k); tauto.
      * rewrite lookup_empty. tauto.
  - unfold createLogEntry, obj_spread.
    destruct (additionalData o); cbn; [apply map_union_subseteq_l | apply map_empty_subseteq].
Qed.

(** ** The registry and the clock in handlers *)

Ltac app_loggers env :=
  rewrite ?(loggers_lookup env "communication" "communication-transactions") by in_table;
  rewrite ?(loggers_lookup env "systemErrors" "system-errors") by in_table;
  rewrite ?(loggers_lookup env "auditLog" "audit-log") by in_table;
  rewrite ?(loggers_lookup env "accountTransactions" "account-transactions") by in_table;
  rewrite ?(loggers_lookup env "clientProfile" "client-profile-management") by in_table;
  rewrite ?(loggers_lookup env "identityVerification" "identity-verification") by in_table;
  rewrite ?(loggers_lookup env "apiPerformance" "api-performance") by in_table.

Ltac app_run env := repeat (progress (app_unfold; app_loggers env)).

(** ** The [/api/clients] routes *)

(** Every [/api/clients] handler, run on a request whose headers are an
    object, completes normally.  It logs its own entries (two for the
    verification route, one for the others) to its own stream, then one
    entry to [audit-log], then one entry to [api-performance], which is its
    last call; all of them at level [info].  It sends one response body and
    reads the clock once at the start, once per entry built by
    [createLogEntry] and once at the end (once more to name a new client). *)
Theorem client_handler_logs env clock route s h :
  headers (st_req s) = VObj h →
  ∃ own audit perf,
    (client_handler env clock route s).1 = Normal tt ∧
    st_trace (client_handler env clock route s).2
    = st_trace s ++ own ++ [audit; perf] ∧
    length own = route_entries route ∧
    Forall (λ c, logger_streams (lc_logger c) = [route_stream route]) own ∧
    logger_streams (lc_logger audit) = ["audit-log"] ∧
    logger_streams (lc_logger perf) = ["api-performance"] ∧
    Forall (λ c, lc_level c = LInfo) (own ++ [audit; perf]) ∧
    length (st_sent (client_handler env clock route s).2)
    = S (length (st_sent s)) ∧
    st_reads (client_handler env clock route s).2
    = (st_reads s + route_reads route)%nat.
Proof.
  destruct s as [tr n req path res sent]. cbn [st_req]. intros H.
  destruct route; app_run env; rewrite H; app_run env.
  2: eexists [_; _], _, _.
  1, 3, 4, 5: eexists [_], _, _.
  all: rewrite <- !app_assoc, length_app;
    cbn [app length route_entries route_stream route_reads].
  all: repeat split; try reflexivity; try lia; repeat constructor.
Qed.

Lemma client_handler_logs_witness :
  ∃ own audit perf,
    (client_handler ∅ Z.of_nat (GetClient "client-1")
       (arriving agent_request (VStr "/api/clients/client-1"))).1 = Normal tt ∧
    st_trace (client_handler ∅ Z.of_nat (GetClient "client-1")
                (arriving agent_request (VStr "/api/clients/client-1"))).2
    = [] ++ own ++ [audit; perf] ∧
    length own = 1%nat ∧
    Forall (λ c, logger_streams (lc_logger c) = ["client-profile-management"]) own ∧
    logger_streams (lc_logger audit) = ["audit-log"] ∧
    logger_streams (lc_logger perf) = ["api-performance"] ∧
    Forall (λ c, lc_level c = LInfo) (own ++ [audit; perf]) ∧
    length (st_sent (client_handler ∅ Z.of_nat (GetClient "client-1")
                       (arriving agent_request (VStr "/api/clients/client-1"))).2)
    = 1%nat ∧
    st_reads (client_handler ∅ Z.of_nat (GetClient "client-1")
                (arriving agent_request (VStr "/api/clients/client-1"))).2
    = 4%nat.
Proof.
  exact (client_handler_logs ∅ Z.of_nat (GetClient "client-1")
           (arriving agent_request (VStr "/api/clients/client-1")) ∅ eq_refl).
Defined.

Lemma message_lookup_ne (msg : string) (meta : object) (k : string) :
  k ≠ "message" → (<["message" := VStr msg]> meta) !! k = meta !! k.
Proof. intros Hk. by rewrite lookup_insert_ne. Qed.

(** The performance entry of a client route records the status code the
    response had when the handler started, not the one the handler sends:
    the route that creates a client logs the incoming code and then sets
    201; the other routes leave the code as it was. *)
Theorem client_handler_status_logged env clock route s h :
  headers (st_req s) = VObj h →
  ∃ perf,
    last (st_trace (client_handler env clock route s).2) = Some perf ∧
    logger_streams (lc_logger perf) = ["api-performance"] ∧
    lc_info perf !! "status" = Some (statusCode (st_res s)) ∧
    st_res (client_handler env clock route s).2
    = (if route is CreateClient then {| statusCode := VNum 201 |} else st_res s).
Proof.
  destruct s as [tr n req path res sent]. cbn [st_req]. intros H.
  destruct route; app_run env; rewrite H; app_run env.
  all: eexists; split; [apply last_snoc |]; cbn [lc_info lc_logger].
  all: repeat split; rewrite message_lookup_ne by done; by literal_lookup.
Qed.

Lemma client_handler_status_logged_witness :
  ∃ perf,
    last (st_trace (client_handler ∅ Z.of_nat CreateClient
                      (arriving agent_request (VStr "/api/clients"))).2)
    = Some perf ∧
    logger_streams (lc_logger perf) = ["api-performance"] ∧
    lc_info perf !! "status" = Some (VNum 200) ∧
    st_res (client_handler ∅ Z.of_nat CreateClient
              (arriving agent_request (VStr "/api/clients"))).2
    = {| statusCode := VNum 201 |}.
Proof.
  exact (client_handler_status_logged ∅ Z.of_nat CreateClient
           (arriving agent_request (VStr "/api/clients")) ∅ eq_refl).
Defined.

(** The performance entry of a client route names the request's path and
    method, and its latency is the last clock reading of the handler minus
    its first, followed by ["ms"]; with a clock that never runs backwards
    the latency is not negative. *)
Theorem client_handler_latency env clock route s h :
  headers (st_req s) = VObj h →
  monotone clock →
  ∃ perf d,
    last (st_trace (client_handler env clock route s).2) = Some perf ∧
    lc_info perf !! "endpoint" = Some (st_path s) ∧
    lc_info perf !! "method" = Some (method (st_req s)) ∧
    lc_info perf !! "latency" = Some (VStr (number_string d +:+ "ms")) ∧
    d = clock (st_reads s + route_reads route - 1)%nat - clock (st_reads s) ∧
    0 ≤ d.
Proof.
  destruct s as [tr n req path res sent]. cbn [st_req]. intros H Hmono.
  destruct route; app_run env; rewrite H; app_run env.
  all: eexists _, _; split; [apply last_snoc |]; cbn [lc_info route_reads].
  all: rewrite !message_lookup_ne by done.
  all: split; [by literal_lookup |]; split; [by literal_lookup |].
  all: split; [by literal_lookup |].
  all: split; [f_equal; f_equal; lia |].
  all: pose proof (Hmono n) as Hn.
  1, 2: specialize (Hn (S (S (S (S n)))) ltac:(lia)); lia.
  all: specialize (Hn (S (S (S n))) ltac:(lia)); lia.
Qed.

Lemma client_handler_latency_witness :
  ∃ perf d,
    last (st_trace (client_handler ∅ (λ n, 1731153845678 + 3 * Z.of_nat n)
                      (GetClient "client-1")
                      (arriving agent_request (VStr "/api/clients/client-1"))).2)
    = Some perf ∧
    lc_info perf !! "endpoint" = Some (VStr "/api/clients/client-1") ∧
    lc_info perf !! "method" = Some (VStr "GET") ∧
    lc_info perf !! "latency" = Some (VStr (number_string d +:+ "ms")) ∧
    d = (1731153845678 + 3 * Z.of_nat 3) - (1731153845678 + 3 * Z.of_nat 0) ∧
    0 ≤ d.
Proof.
  refine (client_handler_latency ∅ (λ n, 1731153845678 + 3 * Z.of_nat n)
            (GetClient "client-1")
            (arriving agent_request (VStr "/api/clients/client-1")) ∅ eq_refl _).
  intros i j Hij. lia.
Defined.

(** ** A request through the middlewares *)

Lemma handle_request_run env handler s :
  handle_request env handler s
  = handler
      {| st_trace :=
           st_trace s ++
           [ {| lc_logger := createLoggerForStream env "system-errors";
                lc_level := LInfo;
                lc_info := incoming_request (st_req s) |} ];
         st_reads := st_reads s;
         st_req := with_agentId (VStr "UNKNOWN_AGENT") (st_req s);
         st_path := st_path s;
         st_res := st_res s;
         st_sent := st_sent s |}.
Proof. destruct s. app_run env. reflexivity. Qed.

(** Whatever the handler of a route is, it runs once, after [logRequest]
    has logged the request as it arrived, and on a request whose [agentId]
    has been overwritten with ["UNKNOWN_AGENT"]: an [agentId] the request
    arrived with does not reach the handler.  The rest of the request and
    the response are handed on untouched, and the outcome of the handler is
    the outcome of the request. *)
Theorem handle_request_overwrites_agentId env handler s :
  handle_request env handler s
  = handler
      {| st_trace :=
           st_trace s ++
           [ {| lc_logger := createLoggerForStream env "system-errors";
                lc_level := LInfo;
                lc_info := incoming_request (st_req s) |} ];
         st_reads := st_reads s;
         st_req := with_agentId (VStr "UNKNOWN_AGENT") (st_req s);
         st_path := st_path s;
         st_res := st_res s;
         st_sent := st_sent s |} ∧
  agentId (with_agentId (VStr "UNKNOWN_AGENT") (st_req s)) = VStr "UNKNOWN_AGENT" ∧
  headers (with_agentId (VStr "UNKNOWN_AGENT") (st_req s)) = headers (st_req s) ∧
  body (with_agentId (VStr "UNKNOWN_AGENT") (st_req s)) = body (st_req s) ∧
  ip (with_agentId (VStr "UNKNOWN_AGENT") (st_req s)) = ip (st_req s) ∧
  originalUrl (with_agentId (VStr "UNKNOWN_AGENT") (st_req s)) = originalUrl (st_req s).
Proof. split; [apply handle_request_run | done]. Qed.

Lemma entry_agentId_fixed now o r msg :
  extra_lacks o "agentId" →
  (<["message" := VStr msg]> (createLogEntry now o r)) !! "agentId"
  = Some (js_or (agentId r) (VStr "UNKNOWN_AGENT")).
Proof.
  intros Hl. rewrite message_lookup_ne by done.
  by rewrite createLogEntry_lacks, fixed_fields_agentId.
Qed.

Lemma entry_agentId_extra now o r msg extra v :
  additionalData o = Some extra → extra !! "agentId" = Some v →
  (<["message" := VStr msg]> (createLogEntry now o r)) !! "agentId" = Some v.
Proof.
  intros Hx Hv. rewrite message_lookup_ne by done.
  by apply (createLogEntry_extra _ _ _ extra).
Qed.

(** A request to a client route, through the middlewares, with headers
    that are an object.  It logs, in this order: the request to
    [system-errors], the route's own entries, one entry to [audit-log] and
    one to [api-performance].  The route's own entries carry the [agentId]
    ["UNKNOWN_AGENT"] whatever [agentId] the request arrived with; the audit
    entry carries the [agentId] header instead, [undefined] when the request
    has no such header; the performance entry has no [agentId]. *)
Theorem client_request_log_sequence env clock route s h :
  headers (st_req s) = VObj h →
  ∃ hook own audit perf,
    (handle_request env (client_handler env clock route) s).1 = Normal tt ∧
    st_trace (handle_request env (client_handler env clock route) s).2
    = st_trace s ++ [hook] ++ own ++ [audit; perf] ∧
    logger_streams (lc_logger hook) = ["system-errors"] ∧
    lc_info hook = incoming_request (st_req s) ∧
    length own = route_entries route ∧
    Forall (λ c, logger_streams (lc_logger c) = [route_stream route] ∧
                 lc_info c !! "agentId" = Some (VStr "UNKNOWN_AGENT")) own ∧
    logger_streams (lc_logger audit) = ["audit-log"] ∧
    lc_info audit !! "agentId" = Some (default VUndefined (h !! "agentId")) ∧
    logger_streams (lc_logger perf) = ["api-performance"] ∧
    lc_info perf !! "agentId" = None.
Proof.
  rewrite handle_request_run.
  destruct s as [tr n req path res sent]. cbn [st_req st_trace st_reads st_path st_res st_sent].
  intros H.
  assert (headers (with_agentId (VStr "UNKNOWN_AGENT") req) = VObj h) as H' by done.
  destruct route; app_run env; rewrite H'; app_run env.
  2: eexists _, [_; _], _, _.
  1, 3, 4, 5: eexists _, [_], _, _.
  all: rewrite <- !app_assoc;
    cbn [app length route_entries route_stream lc_info lc_logger].
  all: split; [reflexivity |]; split; [reflexivity |].
  all: split; [reflexivity |]; split; [reflexivity |]; split; [reflexivity |].
  all: split;
    [ repeat (apply Forall_cons; split;
              [split; [reflexivity | by apply entry_agentId_fixed] |]);
      apply Forall_nil_2 |].
  all: split; [reflexivity |].
  all: split;
    [ eapply entry_agentId_extra; [reflexivity | by literal_lookup] |].
  all: split; [reflexivity |].
  all: cbn [lc_info]; rewrite message_lookup_ne by done; by literal_lookup.
Qed.

Lemma client_request_log_sequence_witness :
  ∃ hook own audit perf,
    (handle_request ∅ (client_handler ∅ Z.of_nat (VerifyClient "client-1"))
       (arriving agent_request (VStr "/api/clients/client-1/verify"))).1
    = Normal tt ∧
    st_trace (handle_request ∅ (client_handler ∅ Z.of_nat (VerifyClient "client-1"))
                (arriving agent_request (VStr "/api/clients/client-1/verify"))).2
    = [] ++ [hook] ++ own ++ [audit; perf] ∧
    logger_streams (lc_logger hook) = ["system-errors"] ∧
    lc_info hook = incoming_request agent_request ∧
    length own = 2%nat ∧
    Forall (λ c, logger_streams (lc_logger c) = ["identity-verification"] ∧
                 lc_info c !! "agentId" = Some (VStr "UNKNOWN_AGENT")) own ∧
    logger_streams (lc_logger audit) = ["audit-log"] ∧
    lc_info audit !! "agentId" = Some VUndefined ∧
    logger_streams (lc_logger perf) = ["api-performance"] ∧
    lc_info perf !! "agentId" = None.
Proof.
  exact (client_request_log_sequence ∅ Z.of_nat (VerifyClient "client-1")
           (arriving agent_request (VStr "/api/clients/client-1/verify"))
           ∅ eq_refl).
Defined.

(** ** Client identifiers *)

Lemma client_id_inj (t1 t2 : Z) :
  "client-" +:+ number_string t1 = "client-" +:+ number_string t2 → t1 = t2.
Proof.
  unfold number_string. cbn [String.append]. intros [= H].
  simpl in H. exact (pretty_Z_inj _ _ H).
Qed.

Lemma createClient_sent_id env clock s h :
  headers (st_req s) = VObj h →
  sent_clientId (createClient env clock s).2
  = Some (VStr ("client-" +:+ number_string (clock (S (st_reads s))))).
Proof.
  destruct s as [tr n req path res sent]. cbn [st_req]. intros H.
  app_run env; rewrite H; app_run env.
  unfold sent_clientId. cbn [st_sent]. rewrite last_snoc. by literal_lookup.
Qed.

(** The route that creates a client names it after the second clock
    reading of the handler, and that one name is what the response returns
    and what the profile entry and the audit entry record. *)
Theorem createClient_id env clock s h :
  headers (st_req s) = VObj h →
  ∃ own audit perf,
    st_trace (createClient env clock s).2 = st_trace s ++ [own; audit; perf] ∧
    sent_clientId (createClient env clock s).2
    = Some (VStr ("client-" +:+ number_string (clock (S (st_reads s))))) ∧
    lc_info own !! "clientId"
    = Some (VStr ("client-" +:+ number_string (clock (S (st_reads s))))) ∧
    lc_info audit !! "clientId"
    = Some (VStr ("client-" +:+ number_string (clock (S (st_reads s))))).
Proof.
  intros H. rewrite (createClient_sent_id env clock s h H).
  destruct s as [tr n req path res sent]. cbn [st_req] in H.
  app_run env; rewrite H; app_run env.
  eexists _, _, _. rewrite <- !app_assoc. cbn [app lc_info].
  split; [reflexivity |]. split; [reflexivity |].
  split; cbn [lc_info]; rewrite message_lookup_ne by done;
    by rewrite createLogEntry_lacks, fixed_fields_clientId.
Qed.

Lemma createClient_id_witness :
  ∃ own audit perf,
    st_trace (createClient ∅ (λ n, 1731153845678 + Z.of_nat n)
                (arriving agent_request (VStr "/api/clients"))).2
    = [] ++ [own; audit; perf] ∧
    sent_clientId (createClient ∅ (λ n, 1731153845678 + Z.of_nat n)
                     (arriving agent_request (VStr "/api/clients"))).2
    = Some (VStr ("client-" +:+ number_string (1731153845678 + Z.of_nat 1))) ∧
    lc_info own !! "clientId"
    = Some (VStr ("client-" +:+ number_string (1731153845678 + Z.of_nat 1))) ∧
    lc_info audit !! "clientId"
    = Some (VStr ("client-" +:+ number_string (1731153845678 + Z.of_nat 1))).
Proof.
  exact (createClient_id ∅ (λ n, 1731153845678 + Z.of_nat n)
           (arriving agent_request (VStr "/api/clients")) ∅ eq_refl).
Defined.

(** Two clients get the same identifier exactly when the clock readings
    they are named after are equal: two creations within one millisecond
    collide, and no others do. *)
Theorem createClient_id_collision env1 env2 clock1 clock2 s1 s2 h1 h2 :
  headers (st_req s1) = VObj h1 →
  headers (st_req s2) = VObj h2 →
  sent_clientId (createClient env1 clock1 s1).2
  = sent_clientId (createClient env2 clock2 s2).2
  ↔ clock1 (S (st_reads s1)) = clock2 (S (st_reads s2)).
Proof.
  intros H1 H2.
  rewrite (createClient_sent_id env1 clock1 s1 h1 H1).
  rewrite (createClient_sent_id env2 clock2 s2 h2 H2).
  split.
  - intros H. apply client_id_inj. congruence.
  - by intros ->.
Qed.

Lemma createClient_id_collision_witness :
  sent_clientId (createClient ∅ (λ _, 1731153845678)
                   (arriving agent_request (VStr "/api/clients"))).2
  = sent_clientId (createClient {[ "AWS_REGION" := "ap-southeast-1" ]}
                     (λ n, 1731153845677 + Z.of_nat n)
                     (arriving agent_request (VStr "/api/clients"))).2.
Proof.
  refine (proj2 (createClient_id_collision ∅ {[ "AWS_REGION" := "ap-southeast-1" ]}
                   (λ _, 1731153845678) (λ n, 1731153845677 + Z.of_nat n)
                   (arriving agent_request (VStr "/api/clients"))
                   (arriving agent_request (VStr "/api/clients"))
                   ∅ ∅ eq_refl eq_refl) _).
  reflexivity.
Defined.

(** ** Identity verification *)

(** The verification route verifies every client, whatever the request
    holds: the response is always ["Client verified"], the second entry
    and the audit entry always record ["VERIFIED"].  The [status] of the
    second entry is the ["VERIFIED"] of its [additionalData] and not the
    ["SUCCESS"] passed as its status; the first entry, which has no such
    property, records ["SUCCESS"] and the submitted data. *)
Theorem verifyClient_always_verified env clock id s h :
  headers (st_req s) = VObj h →
  ∃ first result audit perf,
    st_trace (verifyClient env clock id s).2
    = st_trace s ++ [first; result; audit; perf] ∧
    lc_info first !! "status" = Some (VStr "SUCCESS") ∧
    lc_info first !! "verificationData" = Some (body (st_req s)) ∧
    lc_info result !! "status" = Some (VStr "VERIFIED") ∧
    lc_info audit !! "verificationStatus" = Some (VStr "VERIFIED") ∧
    last (st_sent (verifyClient env clock id s).2)
    = Some (VObj (obj_literal [ ("message", VStr "Client verified");
                                ("clientId", VStr id) ])).
Proof.
  destruct s as [tr n req path res sent]. cbn [st_req]. intros H.
  app_run env; rewrite H; app_run env.
  eexists _, _, _, _. rewrite <- !app_assoc. cbn [app].
  split; [reflexivity |]. cbn [lc_info]. rewrite !message_lookup_ne by done.
  split; [by rewrite createLogEntry_lacks, fixed_fields_status |].
  split; [eapply createLogEntry_extra; [reflexivity | by literal_lookup] |].
  split; [eapply createLogEntry_extra; [reflexivity | by literal_lookup] |].
  split; [eapply createLogEntry_extra; [reflexivity | by literal_lookup] |].
  apply last_snoc.
Qed.

Lemma verifyClient_always_verified_witness :
  ∃ first result audit perf,
    st_trace (verifyClient ∅ Z.of_nat "client-1"
                (arriving agent_request (VStr "/api/clients/client-1/verify"))).2
    = [] ++ [first; result; audit; perf] ∧
    lc_info first !! "status" = Some (VStr "SUCCESS") ∧
    lc_info first !! "verificationData" = Some (VObj ∅) ∧
    lc_info result !! "status" = Some (VStr "VERIFIED") ∧
    lc_info audit !! "verificationStatus" = Some (VStr "VERIFIED") ∧
    last (st_sent (verifyClient ∅ Z.of_nat "client-1"
                     (arriving agent_request (VStr "/api/clients/client-1/verify"))).2)
    = Some (VObj (obj_literal [ ("message", VStr "Client verified");
                                ("clientId", VStr "client-1") ])).
Proof.
  exact (verifyClient_always_verified ∅ Z.of_nat "client-1"
           (arriving agent_request (VStr "/api/clients/client-1/verify"))
           ∅ eq_refl).
Defined.

(** ** Requests without headers *)

(** A client route run on a request whose [headers] are [undefined] or
    [null] throws a [TypeError] when it reads the [agentId] header for its
    audit entry: its own entries have been logged by then, no audit entry
    and no performance entry follow, and no response is sent. *)
Theorem client_handler_without_headers env clock route s :
  headers (st_req s) = VUndefined ∨ headers (st_req s) = VNull →
  ∃ own,
    (client_handler env clock route s).1 = Throw TypeError ∧
    st_trace (client_handler env clock route s).2 = st_trace s ++ own ∧
    length own = route_entries route ∧
    Forall (λ c, logger_streams (lc_logger c) = [route_stream route]) own ∧
    st_sent (client_handler env clock route s).2 = st_sent s ∧
    st_res (client_handler env clock route s).2 = st_res s.
Proof.
  destruct s as [tr n req path res sent]. cbn [st_req]. intros [H | H].
  all: destruct route; app_run env; rewrite H; app_run env.
  2, 7: eexists [_; _].
  all: try eexists [_].
  all: rewrite <- ?app_assoc; cbn [app length route_entries route_stream].
  all: repeat split; repeat constructor.
Qed.

Lemma client_handler_without_headers_witness :
  ∃ own,
    (client_handler ∅ Z.of_nat (DeleteClient "client-1")
       (arriving empty_request VUndefined)).1 = Throw TypeError ∧
    st_trace (client_handler ∅ Z.of_nat (DeleteClient "client-1")
                (arriving empty_request VUndefined)).2 = [] ++ own ∧
    length own = 1%nat ∧
    Forall (λ c, logger_streams (lc_logger c) = ["client-profile-management"]) own ∧
    st_sent (client_handler ∅ Z.of_nat (DeleteClient "client-1")
               (arriving empty_request VUndefined)).2 = [] ∧
    st_res (client_handler ∅ Z.of_nat (DeleteClient "client-1")
              (arriving empty_request VUndefined)).2 = {| statusCode := VNum 200 |}.
Proof.
  exact (client_handler_without_headers ∅ Z.of_nat (DeleteClient "client-1")
           (arriving empty_request VUndefined) (or_introl eq_refl)).
Defined.

(** ** Server start *)

(** When the server starts listening it logs one [info] entry to
    [system-errors], after one clock reading.  The entry is built from a
    request without properties: its [agentId] is ["UNKNOWN_AGENT"] and its
    [endpoint] and [requestIP] are [undefined].  Its [port] is the [PORT] of
    the environment, a string, when that is set and not empty, and the
    number 3000 otherwise. *)
Theorem serverStartup_entry env clock s :
  ∃ e,
    serverStartup env clock s
    = (Normal tt,
       {| st_trace :=
            st_trace s ++
            [ {| lc_logger := createLoggerForStream env "system-errors";
                 lc_level := LInfo;
                 lc_info := e |} ];
          st_reads := S (st_reads s);
          st_req := st_req s; st_path := st_path s; st_res := st_res s;
          st_sent := st_sent s |}) ∧
    e !! "message" = Some (VStr "Server startup") ∧
    e !! "action" = Some (VStr "SERVER_START") ∧
    e !! "clientId" = Some (VStr "SYSTEM") ∧
    e !! "status" = Some (VStr "SUCCESS") ∧
    e !! "timestamp" = Some (VStr (Date.toISOString (clock (st_reads s)))) ∧
    e !! "agentId" = Some (VStr "UNKNOWN_AGENT") ∧
    e !! "endpoint" = Some VUndefined ∧
    e !! "requestIP" = Some VUndefined ∧
    e !! "port"
    = Some (match env !! "PORT" with
            | Some p => if decide (p = "") then VNum 3000 else VStr p
            | None => VNum 3000
            end).
Proof.
  destruct s as [tr n req path res sent].
  app_run env. eexists. split; [reflexivity |].
  rewrite lookup_insert_eq, !message_lookup_ne by done.
  split; [done |].
  split; [by rewrite createLogEntry_lacks, fixed_fields_action |].
  split; [by rewrite createLogEntry_lacks, fixed_fields_clientId |].
  split; [by rewrite createLogEntry_lacks, fixed_fields_status |].
  split; [by rewrite createLogEntry_lacks, fixed_fields_timestamp |].
  split; [by rewrite createLogEntry_lacks, fixed_fields_agentId |].
  split; [by rewrite createLogEntry_lacks, fixed_fields_endpoint |].
  split; [by rewrite createLogEntry_lacks, fixed_fields_requestIP |].
  erewrite createLogEntry_extra; [| reflexivity | by literal_lookup].
  f_equal. unfold js_or, env_get.
  destruct (env !! "PORT") as [p |]; cbn; [| done].
  case_decide as Hp; [by subst p | by destruct p].
Qed.

(** ** The [/example] route *)

(** The [/example] handler completes normally for every request: the error
    it throws is caught.  It makes seven logger calls, exactly one to each
    of the seven log streams; the call to [system-errors] is at level
    [error] and records the message of the caught error, the others are at
    level [info].  Every one of its entries carries the [agentId]
    ["AGENT12345"], whatever the request's [agentId] is.  It sends one
    response and reads the clock eleven times. *)
Theorem exampleRoute_one_entry_per_stream env clock s :
  ∃ calls,
    (exampleRoute env clock s).1 = Normal tt ∧
    st_trace (exampleRoute env clock s).2 = st_trace s ++ calls ∧
    length calls = 7%nat ∧
    (∀ name, name ∈ logging_streams → length (calls_to name calls) = 1%nat) ∧
    Forall (λ c, lc_info c !! "agentId" = Some (VStr "AGENT12345")) calls ∧
    Forall (λ c, lc_level c
                 = if decide ("system-errors" ∈ logger_streams (lc_logger c))
                   then LError else LInfo) calls ∧
    (∀ c, c ∈ calls_to "system-errors" calls →
          lc_info c !! "error" = Some (VStr "Simulated system error")) ∧
    length (st_sent (exampleRoute env clock s).2) = S (length (st_sent s)) ∧
    st_reads (exampleRoute env clock s).2 = (st_reads s + 11)%nat.
Proof.
  destruct s as [tr n req path res sent].
  app_run env. unfold new_Error. cbn [obj_literal fold_left fst snd].
  rewrite lookup_insert_eq. app_run env.
  eexists [_; _; _; _; _; _; _]. rewrite <- !app_assoc. cbn [app].
  split; [reflexivity |]. split; [reflexivity |]. split; [reflexivity |].
  split.
  { unfold logging_streams. intros name.
    rewrite !elem_of_cons, elem_of_nil.
    intros [-> | [-> | [-> | [-> | [-> | [-> | [-> | []]]]]]]]; reflexivity. }
  split.
  { repeat (apply Forall_cons; split;
            [cbn [lc_info]; rewrite message_lookup_ne by done; by literal_lookup |]).
    apply Forall_nil_2. }
  split.
  { repeat (apply Forall_cons; split; [reflexivity |]). apply Forall_nil_2. }
  split.
  { intros c Hc. change (calls_to "system-errors" _) with
      [ {| lc_logger := createLoggerForStream env "system-errors";
           lc_level := LError;
           lc_info :=
             <["message" := VStr "System error encountered"]>
               (obj_literal
                  [ ("action", VStr "ERROR");
                    ("error", VStr "Simulated system error");
                    ("clientId", VStr "CLIENT67890");
                    ("agentId", VStr "AGENT12345");
                    ("timestamp", VStr (Date.toISOString (clock (S (S (S (S (S (S (S (S n)))))))))));
                    ("status", VStr "FAILURE");
                    ("requestIP", ip req) ]) |} ] in Hc.
    apply list_elem_of_singleton in Hc. subst c. cbn [lc_info].
    rewrite message_lookup_ne by done. by literal_lookup. }
  split; [rewrite length_app; cbn; lia | lia].
Qed.

(** ** From the handlers to the transports *)

Lemma deliver_all_console env {R : Type} `{!RemoteTransport R} (w : World R) trace :
  Forall (registry_call env) trace →
  console_out (deliver_all w trace) = console_out w ++ (stamp <$> trace).
Proof.
  induction trace as [| c trace IH] using rev_ind.
  - intros _. cbn. by rewrite app_nil_r.
  - intros [Htrace Hc]%Forall_app. rewrite Forall_singleton in Hc.
    rewrite deliver_all_snoc, (registry_call_deliver env) by done.
    by rewrite IH, fmap_app, app_assoc.
Qed.

Lemma createLoggerForStream_registry_call env key name l info :
  (key, name) ∈ logger_table →
  l = LError ∨ l = LWarn ∨ l = LInfo →
  registry_call env
    {| lc_logger := createLoggerForStream env name; lc_level := l; lc_info := info |}.
Proof.
  intros Hk Hl. split.
  - exists key. by apply loggers_lookup.
  - by apply createLoggerForStream_enabled.
Qed.

(** The hook's entry on its way out: whatever the remote transport is,
    [logRequest] followed by a handler that logs nothing has the console
    print the request entry, stamped with level [info], and hands the same
    entry to the CloudWatch transport of the [system-errors] stream, in the
    configured log group (or ["MyAppLogs"]). *)
Theorem logRequest_entry_delivery env req res (R : Type) (T : RemoteTransport R)
    (w : World R) :
  deliver_all w (logRequest env req res (mret tt) []).2
  = {| console_out :=
         console_out w ++ [ <["level" := VStr "info"]> (incoming_request req) ];
       remote :=
         remote_log
           {| logGroupName := VStr (group_name env);
              logStreamName := "system-errors";
              awsRegion := opt_str (env !! "AWS_REGION");
              jsonMessage := true;
              awsAccessKeyId := opt_str (env !! "AWS_ACCESS_KEY_ID");
              awsSecretAccessKey := opt_str (env !! "AWS_SECRET_ACCESS_KEY");
              uploadRate := 1000 |}
           (<["level" := VStr "info"]> (incoming_request req))
           (remote w) |}.
Proof.
  unfold logRequest.
  rewrite (loggers_lookup env "systemErrors" "system-errors") by in_table.
  unfold createLoggerForStream. rewrite createLoggerForStream_group.
  reflexivity.
Qed.

(** Every logger call of a request to a client route goes through a logger
    of the registry at level [info], so whatever the remote transport is,
    the console prints each of them, in the order of the calls: one line
    for the request, one for each entry of the route, one for the audit
    entry and one for the performance entry. *)
Theorem client_request_console env clock route s h (R : Type)
    (T : RemoteTransport R) (w : World R) :
  headers (st_req s) = VObj h →
  ∃ calls,
    st_trace (handle_request env (client_handler env clock route) s).2
    = st_trace s ++ calls ∧
    length calls = (route_entries route + 3)%nat ∧
    Forall (registry_call env) calls ∧
    console_out (deliver_all w calls) = console_out w ++ (stamp <$> calls).
Proof.
  rewrite handle_request_run.
  destruct s as [tr n req path res sent].
  cbn [st_req st_trace st_reads st_path st_res st_sent]. intros H.
  assert (headers (with_agentId (VStr "UNKNOWN_AGENT") req) = VObj h) as H' by done.
  assert (∀ calls, Forall (registry_call env) calls →
            Forall (registry_call env) calls ∧
            console_out (deliver_all w calls) = console_out w ++ (stamp <$> calls))
    as Hcons.
  { intros calls Hc. split; [done | by apply (deliver_all_console env)]. }
  destruct route; app_run env; rewrite H'; app_run env.
  2: eexists [_; _; _; _; _].
  1, 3, 4, 5: eexists [_; _; _; _].
  all: rewrite <- !app_assoc; cbn [app length route_entries].
  all: split; [reflexivity |]; split; [reflexivity |].
  all: apply Hcons.
  all: repeat (apply Forall_cons; split;
               [eapply createLoggerForStream_registry_call; [in_table | tauto] |]).
  all: apply Forall_nil_2.
Qed.

Lemma client_request_console_witness :
  ∃ calls,
    st_trace (handle_request ∅ (client_handler ∅ Z.of_nat (UpdateClient "client-1"))
                (arriving agent_request (VStr "/api/clients/client-1"))).2
    = [] ++ calls ∧
    length calls = 4%nat ∧
    Forall (registry_call ∅) calls ∧
    console_out (deliver_all {| console_out := []; remote := tt |} calls)
    = [] ++ (stamp <$> calls).
Proof.
  exact (client_request_console ∅ Z.of_nat (UpdateClient "client-1")
           (arriving agent_request (VStr "/api/clients/client-1")) ∅
           unit remote_disabled {| console_out := []; remote := tt |} eq_refl).
Defined.
